(** * Flash-loan sandwich trap: a shallow embedding of
      [flash_sandwich_trap.py] and the properties of its detector.

    Numbers.  The amounts, price impacts and thresholds of the program are
    Python numbers: integers (as in the demo, [50000]) or finite floats
    ([8.5]).  Every such number is a rational and Python compares them
    exactly, so they are embedded in [Q] and [>=] is [Qle_bool] with its
    arguments swapped.  Block numbers and lengths are [Z].

    Objects.  The first part of the file is the value-level reading of the
    code (lists and records as values).  The second part ([Module Store])
    runs the same code over an object store with references, where the
    window, its bundles and their lists are shared mutable objects. *)

From Stdlib Require Import ZArith QArith String List Lia.
From stdpp Require Import base option list gmap strings.
Import ListNotations.

Local Open Scope Z_scope.
Local Open Scope string_scope.
Local Open Scope list_scope.

(** ** Python primitives used by the program *)

(** [a >= b] on numbers. *)
Definition ge (a b : Q) : bool := Qle_bool b a.

(** [l[-k:]] for [k >= 1]: the last [k] elements, or all of [l] when it is
    shorter. *)
Definition slice_last {A : Type} (k : nat) (l : list A) : list A :=
  skipn (length l - k)%nat l.

(** [not l] for a list [l]. *)
Definition is_empty {A : Type} (l : list A) : bool :=
  match l with [] => true | _ :: _ => false end.

(** ** Data classes *)

Module FlashLoan.
Record t : Type := mk {
  borrower : string;
  token : string;
  amount : Q;
  tx_hash : string
}.
End FlashLoan.

Module Swap.
Record t : Type := mk {
  trader : string;
  token_in : string;
  token_out : string;
  amount_in : Q;
  amount_out : Q;
  price_impact : Q;
  tx_hash : string
}.
End Swap.

Module CollectedData.
Record t : Type := mk {
  flash_loans : list FlashLoan.t;
  swaps : list Swap.t;
  block_number : Z;
  timestamp : Z
}.
End CollectedData.

(** The dictionaries built by [get_alert_details]. *)
Module LoanEntry.
(** [{'borrower': ..., 'amount': ..., 'tx': ...}] *)
Record t : Type := mk { borrower : string; amount : Q; tx : string }.
End LoanEntry.

Module SwapEntry.
(** [{'trader': ..., 'price_impact': ..., 'tx': ...}] *)
Record t : Type := mk { trader : string; price_impact : Q; tx : string }.
End SwapEntry.

Module Alert.
Record t : Type := mk {
  attack_type : string;
  severity : string;
  flash_loans : list LoanEntry.t;
  high_impact_swaps : list SwapEntry.t;
  blocks_analyzed : Z
}.
End Alert.

(** ** The full detector *)

Module FlashSandwichTrap.

(** The [config] dictionary, by its three recognised keys; [None] is an
    absent key. *)
Record Config : Type := mkConfig {
  cfg_min_price_impact : option Q;
  cfg_min_flash_loan_size : option Q;
  cfg_max_blocks_between : option Z
}.

(** [{}] *)
Definition empty_config : Config := mkConfig None None None.

(** The attributes of a trap instance. *)
Record t : Type := mk {
  min_price_impact : Q;
  min_flash_loan_size : Q;
  max_blocks_between : Z
}.

(** [__init__]: [config.get(key, default)] for each attribute. *)
Definition init (config : Config) : t :=
  {| min_price_impact := default (5 # 1)%Q (cfg_min_price_impact config);
     min_flash_loan_size := default (100000 # 1)%Q (cfg_min_flash_loan_size config);
     max_blocks_between := default 1 (cfg_max_blocks_between config) |}.

(** [collect] *)
Definition collect (self : t) (block_number : Z) : CollectedData.t :=
  {| CollectedData.flash_loans := [];
     CollectedData.swaps := [];
     CollectedData.block_number := block_number;
     CollectedData.timestamp := 0 |}.

(** [historical_data[-2:] if len(historical_data) >= 2 else historical_data] *)
Definition recent_blocks (historical_data : list CollectedData.t)
  : list CollectedData.t :=
  if (2 <=? length historical_data)%nat
  then slice_last 2 historical_data
  else historical_data.

(** Step 1: the two nested loops appending to [flash_loans]. *)
Definition find_flash_loans (self : t) (recent : list CollectedData.t)
  : list FlashLoan.t :=
  fold_left
    (fun flash_loans block =>
       fold_left
         (fun flash_loans loan =>
            if ge (FlashLoan.amount loan) (min_flash_loan_size self)
            then flash_loans ++ [loan]
            else flash_loans)
         (CollectedData.flash_loans block) flash_loans)
    recent [].

(** Step 2: the two nested loops appending to [high_impact_swaps]. *)
Definition find_high_impact_swaps (self : t) (recent : list CollectedData.t)
  : list Swap.t :=
  fold_left
    (fun high_impact_swaps block =>
       fold_left
         (fun high_impact_swaps swap =>
            if ge (Swap.price_impact swap) (min_price_impact self)
            then high_impact_swaps ++ [swap]
            else high_impact_swaps)
         (CollectedData.swaps block) high_impact_swaps)
    recent [].

(** Step 3, inner loop: [return True] at the first related swap. *)
Fixpoint scan_swaps (loan : FlashLoan.t) (high_impact_swaps : list Swap.t)
  : bool :=
  match high_impact_swaps with
  | [] => false
  | swap :: rest =>
      if String.eqb (FlashLoan.tx_hash loan) (Swap.tx_hash swap) then true
      else if String.eqb (FlashLoan.borrower loan) (Swap.trader swap) then true
      else scan_swaps loan rest
  end.

(** Step 3, outer loop. *)
Fixpoint scan_loans (flash_loans : list FlashLoan.t)
         (high_impact_swaps : list Swap.t) : bool :=
  match flash_loans with
  | [] => false
  | loan :: rest =>
      if scan_swaps loan high_impact_swaps then true
      else scan_loans rest high_impact_swaps
  end.

Definition should_respond (self : t) (historical_data : list CollectedData.t)
  : bool :=
  if (length historical_data <? 1)%nat then false
  else
    let recent := recent_blocks historical_data in
    let flash_loans := find_flash_loans self recent in
    if is_empty flash_loans then false
    else
      let high_impact_swaps := find_high_impact_swaps self recent in
      if is_empty high_impact_swaps then false
      else scan_loans flash_loans high_impact_swaps.

Definition loan_entry (loan : FlashLoan.t) : LoanEntry.t :=
  {| LoanEntry.borrower := FlashLoan.borrower loan;
     LoanEntry.amount := FlashLoan.amount loan;
     LoanEntry.tx := FlashLoan.tx_hash loan |}.

Definition swap_entry (swap : Swap.t) : SwapEntry.t :=
  {| SwapEntry.trader := Swap.trader swap;
     SwapEntry.price_impact := Swap.price_impact swap;
     SwapEntry.tx := Swap.tx_hash swap |}.

(** The loop of [get_alert_details]: each block extends both lists by a
    list comprehension. *)
Definition alert_lists (self : t) (recent : list CollectedData.t)
  : list LoanEntry.t * list SwapEntry.t :=
  fold_left
    (fun '(flash_loans, swaps) block =>
       (flash_loans ++
          map loan_entry
            (List.filter
               (fun loan => ge (FlashLoan.amount loan) (min_flash_loan_size self))
               (CollectedData.flash_loans block)),
        swaps ++
          map swap_entry
            (List.filter
               (fun swap => ge (Swap.price_impact swap) (min_price_impact self))
               (CollectedData.swaps block))))
    recent ([], []).

Definition get_alert_details (self : t) (historical_data : list CollectedData.t)
  : Alert.t :=
  let recent := slice_last 2 historical_data in
  let '(flash_loans, swaps) := alert_lists self recent in
  {| Alert.attack_type := "flash_loan_sandwich";
     Alert.severity := "HIGH";
     Alert.flash_loans := flash_loans;
     Alert.high_impact_swaps := swaps;
     Alert.blocks_analyzed := Z.of_nat (length historical_data) |}.

End FlashSandwichTrap.

(** ** The simplified detector *)

Module SimpleFlashSandwichTrap.

(** The dictionary returned by [collect]:
    [{'block': ..., 'flash_loans': [...], 'price_impacts': [...]}]. *)
Record Block : Type := mkBlock {
  block : Z;
  flash_loans : list Q;
  price_impacts : list Q
}.

Record t : Type := mk {
  price_impact_threshold : Q;
  flash_loan_threshold : Q
}.

(** [__init__] *)
Definition init : t :=
  {| price_impact_threshold := (5 # 1)%Q;
     flash_loan_threshold := (100000 # 1)%Q |}.

Definition collect (self : t) (block_number : Z) : Block :=
  {| block := block_number; flash_loans := []; price_impacts := [] |}.

Definition should_respond (self : t) (last_blocks : list Block) : bool :=
  if (length last_blocks <? 1)%nat then false
  else
    let recent :=
      if (2 <=? length last_blocks)%nat then slice_last 2 last_blocks
      else last_blocks in
    let has_large_loan :=
      existsb (fun block =>
                 existsb (fun loan => ge loan (flash_loan_threshold self))
                         (flash_loans block))
              recent in
    let has_price_impact :=
      existsb (fun block =>
                 existsb (fun impact => ge impact (price_impact_threshold self))
                         (price_impacts block))
              recent in
    has_large_loan && has_price_impact.

End SimpleFlashSandwichTrap.

(** ** The demo data of [main] *)

Definition data1 : CollectedData.t :=
  {| CollectedData.flash_loans :=
       [FlashLoan.mk "0xUser1" "USDC" (50000 # 1) "0xTx1"];
     CollectedData.swaps :=
       [Swap.mk "0xUser2" "ETH" "USDC" (10 # 1) (20000 # 1) (1 # 2) "0xTx2"];
     CollectedData.block_number := 1000;
     CollectedData.timestamp := 1000 |}.

Definition data2 : CollectedData.t :=
  {| CollectedData.flash_loans :=
       [FlashLoan.mk "0xAttacker" "USDC" (500000 # 1) "0xTx3"];
     CollectedData.swaps :=
       [Swap.mk "0xAttacker" "USDC" "ETH" (500000 # 1) (250 # 1) (17 # 2) "0xTx3"];
     CollectedData.block_number := 1001;
     CollectedData.timestamp := 1001 |}.

Definition historical : list CollectedData.t := [data1; data2].

(** The trap built from [{}]: every attribute at its default.  The
    [config] of [main] spells out the same three values. *)
Definition default_trap : FlashSandwichTrap.t :=
  FlashSandwichTrap.init FlashSandwichTrap.empty_config.

Definition main_config : FlashSandwichTrap.Config :=
  FlashSandwichTrap.mkConfig (Some (5 # 1)%Q) (Some (100000 # 1)%Q) (Some 1).

(** A trap configured with [max_blocks_between = 2]. *)
Definition wide_trap : FlashSandwichTrap.t :=
  FlashSandwichTrap.init (FlashSandwichTrap.mkConfig None None (Some 2)).

(** Three bundles, the attack of [main] in the oldest one. *)
Definition attack_then_quiet : list CollectedData.t := [data2; data1; data1].

(** Three bundles, the attack of [main] in the newest one. *)
Definition quiet_then_attack : list CollectedData.t := [data1; data1; data2].

(** A large loan and a high-impact swap in one transaction, by two
    addresses. *)
Definition tx3_loan : FlashLoan.t :=
  FlashLoan.mk "0xBorrower" "USDC" (500000 # 1) "0xTx3".

Definition tx3_swap : Swap.t :=
  Swap.mk "0xTrader" "USDC" "ETH" (500000 # 1) (250 # 1) (17 # 2) "0xTx3".

Definition tx3_block : CollectedData.t :=
  {| CollectedData.flash_loans := [tx3_loan];
     CollectedData.swaps := [tx3_swap];
     CollectedData.block_number := 1001;
     CollectedData.timestamp := 1001 |}.

(** A large loan in one block and a high-impact swap by the borrower in the
    next block, in another transaction. *)
Definition attacker_loan : FlashLoan.t :=
  FlashLoan.mk "0xAttacker" "USDC" (500000 # 1) "0xTxLoan".

Definition attacker_swap : Swap.t :=
  Swap.mk "0xAttacker" "USDC" "ETH" (500000 # 1) (250 # 1) (9 # 1) "0xTxSwap".

Definition loan_block : CollectedData.t :=
  {| CollectedData.flash_loans := [attacker_loan];
     CollectedData.swaps := [];
     CollectedData.block_number := 3000;
     CollectedData.timestamp := 3000 |}.

Definition swap_block : CollectedData.t :=
  {| CollectedData.flash_loans := [];
     CollectedData.swaps := [attacker_swap];
     CollectedData.block_number := 3001;
     CollectedData.timestamp := 3001 |}.

(** One bundle with a large loan and a high-impact swap of another actor in
    another transaction. *)
Definition unrelated_pair : list CollectedData.t :=
  [ {| CollectedData.flash_loans :=
         [FlashLoan.mk "0xLender" "USDC" (500000 # 1) "0xTxA"];
       CollectedData.swaps :=
         [Swap.mk "0xWhale" "USDC" "ETH" (500000 # 1) (250 # 1) (17 # 2) "0xTxB"];
       CollectedData.block_number := 2000;
       CollectedData.timestamp := 2000 |} ].

(** ** Vocabulary for the statements *)

Module Events.
Import FlashSandwichTrap.

(** The relation tested on each pair in step 3. *)
Definition related (loan : FlashLoan.t) (swap : Swap.t) : bool :=
  String.eqb (FlashLoan.tx_hash loan) (Swap.tx_hash swap)
  || String.eqb (FlashLoan.borrower loan) (Swap.trader swap).

Definition big_loan (self : t) (loan : FlashLoan.t) : bool :=
  ge (FlashLoan.amount loan) (min_flash_loan_size self).

Definition big_swap (self : t) (swap : Swap.t) : bool :=
  ge (Swap.price_impact swap) (min_price_impact self).

(** Every loan, resp. swap, of a list of bundles, in order. *)
Definition all_loans (bs : list CollectedData.t) : list FlashLoan.t :=
  List.concat (List.map CollectedData.flash_loans bs).

Definition all_swaps (bs : list CollectedData.t) : list Swap.t :=
  List.concat (List.map CollectedData.swaps bs).

End Events.

(** ** The design document's reading, for comparison with the code *)

Module Design.
Import FlashSandwichTrap Events.

(** [recent(n)]: the last [min(n, len)] bundles, in ascending order. *)
Definition recent (n : nat) (window : list CollectedData.t)
  : list CollectedData.t :=
  skipn (length window - Nat.min n (length window))%nat window.

(** The look-back [max_blocks_between + 1]. *)
Definition look_back (self : t) : nat :=
  Z.to_nat (max_blocks_between self + 1).

(** The detector as the design document words it, steps 1 to 7. *)
Definition should_respond (self : t) (window : list CollectedData.t) : bool :=
  let recent := recent (look_back self) window in
  let qualifying_loans := List.filter (big_loan self) (all_loans recent) in
  if is_empty qualifying_loans then false
  else
    let qualifying_swaps := List.filter (big_swap self) (all_swaps recent) in
    if is_empty qualifying_swaps then false
    else existsb (fun loan => existsb (related loan) qualifying_swaps)
                 qualifying_loans.

(** [blocks_analyzed] as the design document words it. *)
Definition blocks_analyzed (self : t) (window : list CollectedData.t) : Z :=
  Z.of_nat (length (recent (look_back self) window)).

(** The loan-amount / price-impact shape of a bundle, the shape the
    simplified detector reads. *)
Definition simple_block (b : CollectedData.t) : SimpleFlashSandwichTrap.Block :=
  {| SimpleFlashSandwichTrap.block := CollectedData.block_number b;
     SimpleFlashSandwichTrap.flash_loans :=
       map FlashLoan.amount (CollectedData.flash_loans b);
     SimpleFlashSandwichTrap.price_impacts :=
       map Swap.price_impact (CollectedData.swaps b) |}.

End Design.

(** ** The same code over an object store *)

Module Store.

(** References.  A Python variable or attribute holding an object holds
    its address; two names may hold the same address. *)
Definition loc : Type := positive.

(** Objects.  Lists hold references.  The instances of [FlashLoan] and
    [Swap] and the entry dictionaries have only strings and numbers in
    their fields; a [CollectedData] instance and the alert dictionary
    refer to their lists. *)
Inductive obj : Type :=
| OList (items : list loc)
| OFlashLoan (v : FlashLoan.t)
| OSwap (v : Swap.t)
| OCollectedData (flash_loans swaps : loc) (block_number timestamp : Z)
| OLoanEntry (v : LoanEntry.t)
| OSwapEntry (v : SwapEntry.t)
| OAlert (attack_type severity : string)
         (flash_loans high_impact_swaps : loc) (blocks_analyzed : Z).

Abbreviation heap := (gmap loc obj).

(** Computations on the store; [None] is a raised exception (a name bound
    to an object of the wrong class). *)
Definition M (A : Type) : Type := heap -> option (A * heap).

Definition ret {A : Type} (a : A) : M A := fun h => Some (a, h).

Definition bind {A B : Type} (m : M A) (k : A -> M B) : M B :=
  fun h => match m h with
           | Some (a, h') => k a h'
           | None => None
           end.

Definition raise {A : Type} : M A := fun _ => None.

Notation "x <- m ;; k" := (bind m (fun x => k))
  (at level 100, m at next level, right associativity).

(** A [for] loop over the items a list holds when the loop starts (no
    loop of the program writes to the list it runs over). *)
Fixpoint for_each {A : Type} (xs : list A) (body : A -> M unit) : M unit :=
  match xs with
  | [] => ret tt
  | x :: rest => _ <- body x ;; for_each rest body
  end.

(** Object creation: a new address, never one in use. *)
Definition new (o : obj) : M loc :=
  fun h => let l := fresh (dom h) in Some (l, <[l := o]> h).

(** The items of a list object. *)
Definition items (l : loc) : M (list loc) :=
  fun h => match h !! l with
           | Some (OList xs) => Some (xs, h)
           | _ => None
           end.

(** [len(l)] *)
Definition len (l : loc) : M nat :=
  xs <- items l ;; ret (length xs).

(** [l[-k:]], a new list object. *)
Definition slice (k : nat) (l : loc) : M loc :=
  xs <- items l ;; new (OList (slice_last k xs)).

(** [l.append(x)], in place. *)
Definition append (l x : loc) : M unit :=
  fun h => match h !! l with
           | Some (OList xs) => Some (tt, <[l := OList (xs ++ [x])]> h)
           | _ => None
           end.

(** [l.extend(ys)], in place. *)
Definition extend (l : loc) (ys : list loc) : M unit :=
  fun h => match h !! l with
           | Some (OList xs) => Some (tt, <[l := OList (xs ++ ys)]> h)
           | _ => None
           end.

(** Attribute reads. *)
Definition loan (l : loc) : M FlashLoan.t :=
  fun h => match h !! l with
           | Some (OFlashLoan v) => Some (v, h)
           | _ => None
           end.

Definition swap (l : loc) : M Swap.t :=
  fun h => match h !! l with
           | Some (OSwap v) => Some (v, h)
           | _ => None
           end.

Definition block_flash_loans (b : loc) : M loc :=
  fun h => match h !! b with
           | Some (OCollectedData fl _ _ _) => Some (fl, h)
           | _ => None
           end.

Definition block_swaps (b : loc) : M loc :=
  fun h => match h !! b with
           | Some (OCollectedData _ sw _ _) => Some (sw, h)
           | _ => None
           end.

Section Programs.
Variable self : FlashSandwichTrap.t.

(** Step 3 of [should_respond], inner and outer loop. *)
Fixpoint scan_swaps (l : loc) (high_impact_swaps : list loc) : M bool :=
  match high_impact_swaps with
  | [] => ret false
  | s :: rest =>
      lv <- loan l ;;
      sv <- swap s ;;
      if String.eqb (FlashLoan.tx_hash lv) (Swap.tx_hash sv) then ret true
      else if String.eqb (FlashLoan.borrower lv) (Swap.trader sv) then ret true
      else scan_swaps l rest
  end.

Fixpoint scan_loans (flash_loans high_impact_swaps : list loc) : M bool :=
  match flash_loans with
  | [] => ret false
  | l :: rest =>
      found <- scan_swaps l high_impact_swaps ;;
      if found then ret true else scan_loans rest high_impact_swaps
  end.

Definition should_respond (historical_data : loc) : M bool :=
  n <- len historical_data ;;
  if (n <? 1)%nat then ret false
  else
    recent_blocks <-
      (if (2 <=? n)%nat then slice 2 historical_data
       else ret historical_data) ;;
    flash_loans <- new (OList []) ;;
    blocks <- items recent_blocks ;;
    _ <- for_each blocks (fun block =>
           fl <- block_flash_loans block ;;
           ls <- items fl ;;
           for_each ls (fun l =>
             lv <- loan l ;;
             if ge (FlashLoan.amount lv)
                   (FlashSandwichTrap.min_flash_loan_size self)
             then append flash_loans l
             else ret tt)) ;;
    found_loans <- items flash_loans ;;
    if is_empty found_loans then ret false
    else
      high_impact_swaps <- new (OList []) ;;
      blocks <- items recent_blocks ;;
      _ <- for_each blocks (fun block =>
             sw <- block_swaps block ;;
             ss <- items sw ;;
             for_each ss (fun s =>
               sv <- swap s ;;
               if ge (Swap.price_impact sv)
                     (FlashSandwichTrap.min_price_impact self)
               then append high_impact_swaps s
               else ret tt)) ;;
      found_swaps <- items high_impact_swaps ;;
      if is_empty found_swaps then ret false
      else
        loans <- items flash_loans ;;
        swaps <- items high_impact_swaps ;;
        scan_loans loans swaps.

(** The two list comprehensions of [get_alert_details]: one new
    dictionary per event that passes the test. *)
Fixpoint loan_entries (ls : list loc) : M (list loc) :=
  match ls with
  | [] => ret []
  | l :: rest =>
      lv <- loan l ;;
      if ge (FlashLoan.amount lv) (FlashSandwichTrap.min_flash_loan_size self)
      then e <- new (OLoanEntry (FlashSandwichTrap.loan_entry lv)) ;;
           es <- loan_entries rest ;;
           ret (e :: es)
      else loan_entries rest
  end.

Fixpoint swap_entries (ss : list loc) : M (list loc) :=
  match ss with
  | [] => ret []
  | s :: rest =>
      sv <- swap s ;;
      if ge (Swap.price_impact sv) (FlashSandwichTrap.min_price_impact self)
      then e <- new (OSwapEntry (FlashSandwichTrap.swap_entry sv)) ;;
           es <- swap_entries rest ;;
           ret (e :: es)
      else swap_entries rest
  end.

Definition get_alert_details (historical_data : loc) : M loc :=
  recent_blocks <- slice 2 historical_data ;;
  flash_loans <- new (OList []) ;;
  swaps <- new (OList []) ;;
  blocks <- items recent_blocks ;;
  _ <- for_each blocks (fun block =>
         fl <- block_flash_loans block ;;
         ls <- items fl ;;
         es <- loan_entries ls ;;
         _ <- extend flash_loans es ;;
         sw <- block_swaps block ;;
         ss <- items sw ;;
         es <- swap_entries ss ;;
         extend swaps es) ;;
  n <- len historical_data ;;
  new (OAlert "flash_loan_sandwich" "HIGH" flash_loans swaps (Z.of_nat n)).

(** The monitoring step of [main] and [run.py]: decide, then build the
    alert. *)
Definition respond_then_alert (historical_data : loc) : M (bool * loc) :=
  r <- should_respond historical_data ;;
  a <- get_alert_details historical_data ;;
  ret (r, a).

End Programs.

(** *** Reading values back from the store *)

Definition read_items (h : heap) (l : loc) : option (list loc) :=
  match h !! l with
  | Some (OList xs) => Some xs
  | _ => None
  end.

Definition read_loan (h : heap) (l : loc) : option FlashLoan.t :=
  match h !! l with
  | Some (OFlashLoan v) => Some v
  | _ => None
  end.

Definition read_swap (h : heap) (l : loc) : option Swap.t :=
  match h !! l with
  | Some (OSwap v) => Some v
  | _ => None
  end.

Definition read_loan_entry (h : heap) (l : loc) : option LoanEntry.t :=
  match h !! l with
  | Some (OLoanEntry v) => Some v
  | _ => None
  end.

Definition read_swap_entry (h : heap) (l : loc) : option SwapEntry.t :=
  match h !! l with
  | Some (OSwapEntry v) => Some v
  | _ => None
  end.

Definition read_list {A : Type} (read : heap -> loc -> option A)
           (h : heap) (l : loc) : option (list A) :=
  match read_items h l with
  | Some xs => mapM (read h) xs
  | None => None
  end.

Definition read_block (h : heap) (b : loc) : option CollectedData.t :=
  match h !! b with
  | Some (OCollectedData fl sw bn ts) =>
      match read_list read_loan h fl, read_list read_swap h sw with
      | Some lv, Some sv => Some (CollectedData.mk lv sv bn ts)
      | _, _ => None
      end
  | _ => None
  end.

(** The window held at an address, as a value. *)
Definition read_window (h : heap) (historical_data : loc)
  : option (list CollectedData.t) :=
  read_list read_block h historical_data.

(** The alert held at an address, as a value. *)
Definition read_alert (h : heap) (a : loc) : option Alert.t :=
  match h !! a with
  | Some (OAlert ty sev fl sw n) =>
      match read_list read_loan_entry h fl, read_list read_swap_entry h sw with
      | Some lv, Some sv => Some (Alert.mk ty sev lv sv n)
      | _, _ => None
      end
  | _ => None
  end.

(** *** Building a window in the store, as the monitoring loop does *)

Fixpoint new_each {A : Type} (mk : A -> M loc) (vs : list A) : M (list loc) :=
  match vs with
  | [] => ret []
  | v :: rest => l <- mk v ;; ls <- new_each mk rest ;; ret (l :: ls)
  end.

Definition new_block (b : CollectedData.t) : M loc :=
  ls <- new_each (fun v => new (OFlashLoan v)) (CollectedData.flash_loans b) ;;
  fl <- new (OList ls) ;;
  ss <- new_each (fun v => new (OSwap v)) (CollectedData.swaps b) ;;
  sw <- new (OList ss) ;;
  new (OCollectedData fl sw (CollectedData.block_number b)
                      (CollectedData.timestamp b)).

Definition new_window (w : list CollectedData.t) : M loc :=
  bs <- new_each new_block w ;;
  new (OList bs).

(** The store that holds just the window [w], and the address of the
    window in it. *)
Definition initial (w : list CollectedData.t) : heap * loc :=
  match new_window w ∅ with
  | Some (hd, h) => (h, hd)
  | None => (∅, 1%positive)
  end.

(** *** Vocabulary for the loops *)

(** [m] succeeds from every store that extends [h0] and holds a list at
    [dst]; it changes nothing but that list, to which it appends items
    satisfying [P]. *)
Definition appends_to (h0 : heap) (dst : loc) (m : M unit)
           (P : list loc -> Prop) : Prop :=
  forall (h : heap) (acc : list loc),
    h0 ⊆ h -> h !! dst = Some (OList acc) ->
    exists new, m h = Some (tt, <[dst := OList (acc ++ new)]> h) /\ P new.

(** The addresses [xs] hold loans, resp. swaps, with values [vs]. *)
Definition loans_at (h : heap) (xs : list loc) (vs : list FlashLoan.t) : Prop :=
  Forall2 (fun x v => read_loan h x = Some v) xs vs.

Definition swaps_at (h : heap) (xs : list loc) (vs : list Swap.t) : Prop :=
  Forall2 (fun x v => read_swap h x = Some v) xs vs.

Definition blocks_at (h : heap) (xs : list loc) (vs : list CollectedData.t)
  : Prop :=
  Forall2 (fun x v => read_block h x = Some v) xs vs.

Definition loan_entries_at (h : heap) (xs : list loc) (vs : list LoanEntry.t)
  : Prop :=
  Forall2 (fun x v => read_loan_entry h x = Some v) xs vs.

Definition swap_entries_at (h : heap) (xs : list loc) (vs : list SwapEntry.t)
  : Prop :=
  Forall2 (fun x v => read_swap_entry h x = Some v) xs vs.

(** Every object of [h] that is not a list is in [h'], unchanged. *)
Definition stable (h h' : heap) : Prop :=
  forall (l : loc) (o : obj),
    h !! l = Some o -> (forall xs, o <> OList xs) -> h' !! l = Some o.

(** The state of the loop of [get_alert_details]: the store extends
    [h0], and the two local lists hold entries with the given values. *)
Definition alert_state (h0 : heap) (fl sw : loc) (h : heap)
           (EL : list LoanEntry.t) (ES : list SwapEntry.t) : Prop :=
  h0 ⊆ h /\
  (exists accL, h !! fl = Some (OList accL) /\ loan_entries_at h accL EL) /\
  (exists accS, h !! sw = Some (OList accS) /\ swap_entries_at h accS ES).

End Store.

(** ** The monitoring script [run.py] *)

(** The dictionaries the connector returns for a block. *)
Module LoanLog.
(** [{'borrower': ..., 'amount': ..., 'tx_hash': ...}] *)
Record t : Type := mk { borrower : string; amount : Q; tx_hash : string }.
End LoanLog.

Module SwapLog.
(** [{'trader': ..., 'amount_in': ..., 'amount_out': ...,
      'price_impact': ..., 'tx_hash': ...}] *)
Record t : Type := mk {
  trader : string;
  amount_in : Q;
  amount_out : Q;
  price_impact : Q;
  tx_hash : string
}.
End SwapLog.

Module Run.

(** What the script asks of the chain: [connector.w3.eth.block_number],
    [connector.get_flash_loans] and [connector.get_swaps].  Both getters
    return a list for every block number (they swallow their errors). *)
Record Connector : Type := mkConnector {
  block_number : Z;
  get_flash_loans : Z -> list LoanLog.t;
  get_swaps : Z -> list SwapLog.t
}.

(** The lines the script prints, in order. *)
Inductive line : Type :=
| Running
| MinPriceImpact (value : Q)
| MinFlashLoan (value : Q)
| Blank
| NoIncident (block_num : Z)
| Attack (block_num : Z)
| Details (alert : Alert.t)
| Complete.

(** [range(a, b)] *)
Definition range (a b : Z) : list Z :=
  List.map (fun i => a + Z.of_nat i) (seq 0 (Z.to_nat (b - a))).

(** "Convert to trap format". *)
Definition to_loan (l : LoanLog.t) : FlashLoan.t :=
  FlashLoan.mk (LoanLog.borrower l) "USDC" (LoanLog.amount l) (LoanLog.tx_hash l).

Definition to_swap (s : SwapLog.t) : Swap.t :=
  Swap.mk (SwapLog.trader s) "ETH" "USDC" (SwapLog.amount_in s)
          (SwapLog.amount_out s) (SwapLog.price_impact s) (SwapLog.tx_hash s).

(** [collected] for one block number. *)
Definition collected (connector : Connector) (block_num : Z) : CollectedData.t :=
  CollectedData.mk (List.map to_loan (get_flash_loans connector block_num))
                   (List.map to_swap (get_swaps connector block_num))
                   block_num 0.

(** The [for] loop with its [break]; [historical_data] is the list as it
    stands when the iteration starts. *)
Fixpoint loop (trap : FlashSandwichTrap.t) (connector : Connector)
         (blocks : list Z) (historical_data : list CollectedData.t) : list line :=
  match blocks with
  | [] => []
  | block_num :: rest =>
      let historical_data := historical_data ++ [collected connector block_num] in
      if FlashSandwichTrap.should_respond trap historical_data
      then [Attack block_num;
            Details (FlashSandwichTrap.get_alert_details trap historical_data)]
      else NoIncident block_num :: loop trap connector rest historical_data
  end.

(** The script, from the loaded [config] on: the lines printed and, when
    an indexing [config[key]] fails, the key of the [KeyError]. *)
Definition run (config : FlashSandwichTrap.Config) (connector : Connector)
  : list line * option string :=
  let trap := FlashSandwichTrap.init config in
  match FlashSandwichTrap.cfg_min_price_impact config with
  | None => ([Running], Some "min_price_impact")
  | Some price_impact =>
      match FlashSandwichTrap.cfg_min_flash_loan_size config with
      | None => ([Running; MinPriceImpact price_impact],
                 Some "min_flash_loan_size")
      | Some flash_loan =>
          let current_block := block_number connector in
          let start_block := current_block - 10 in
          ([Running; MinPriceImpact price_impact; MinFlashLoan flash_loan; Blank]
             ++ loop trap connector (range start_block current_block) []
             ++ [Complete],
           None)
      end
  end.

(** [historical_data] after the first [k] blocks were collected. *)
Definition history (connector : Connector) (blocks : list Z) (k : nat)
  : list CollectedData.t :=
  List.map (collected connector) (take k blocks).

End Run.

(** The blocks of [test_quick.py]. *)
Definition test_block1 : SimpleFlashSandwichTrap.Block :=
  SimpleFlashSandwichTrap.mkBlock 1000 [(50000 # 1)%Q] [(1 # 1)%Q].

Definition test_block2 : SimpleFlashSandwichTrap.Block :=
  SimpleFlashSandwichTrap.mkBlock 1001 [(500000 # 1)%Q] [(17 # 2)%Q].

(** A connector that sees the attack of [main] at block 1001 and nothing
    else, with the chain head at block 1005. *)
Definition demo_connector : Run.Connector :=
  Run.mkConnector 1005
    (fun n => if Z.eqb n 1001
              then [LoanLog.mk "0xAttacker" (500000 # 1) "0xTx3"] else [])
    (fun n => if Z.eqb n 1001
              then [SwapLog.mk "0xAttacker" (500000 # 1) (250 # 1) (17 # 2) "0xTx3"]
              else []).

(** A connector that sees nothing. *)
Definition quiet_connector : Run.Connector :=
  Run.mkConnector 1005 (fun _ => []) (fun _ => []).

(** ** The fields the detector reads *)

(** A bundle with every field the detector might not read blanked out:
    the tokens, the swapped amounts, the block number and the timestamp. *)
Definition strip_loan (loan : FlashLoan.t) : FlashLoan.t :=
  FlashLoan.mk (FlashLoan.borrower loan) "" (FlashLoan.amount loan)
               (FlashLoan.tx_hash loan).

Definition strip_swap (swap : Swap.t) : Swap.t :=
  Swap.mk (Swap.trader swap) "" "" (0 # 1) (0 # 1) (Swap.price_impact swap)
          (Swap.tx_hash swap).

Definition strip_block (b : CollectedData.t) : CollectedData.t :=
  CollectedData.mk (List.map strip_loan (CollectedData.flash_loans b))
                   (List.map strip_swap (CollectedData.swaps b)) 0 0.

(** ** Loops as list functions *)

Section Loops.
Context {A B : Type}.

(** A loop that appends the elements passing a test is a filter. *)
Lemma fold_append_filter (p : A -> bool) (l acc : list A) :
  fold_left (fun acc x => if p x then acc ++ [x] else acc) l acc
  = acc ++ List.filter p l.
Proof.
  revert acc. induction l as [|x l IH]; intros acc; simpl.
  - now rewrite app_nil_r.
  - rewrite IH. destruct (p x); [|reflexivity].
    now rewrite <- app_assoc.
Qed.

(** The same loop nested in a loop over containers. *)
Lemma fold_nested_filter (p : A -> bool) (f : B -> list A)
      (bs : list B) (acc : list A) :
  fold_left
    (fun acc b => fold_left (fun acc x => if p x then acc ++ [x] else acc) (f b) acc)
    bs acc
  = acc ++ List.filter p (List.concat (List.map f bs)).
Proof.
  revert acc. induction bs as [|b bs IH]; intros acc; simpl.
  - now rewrite app_nil_r.
  - rewrite IH, fold_append_filter, List.filter_app. now rewrite <- app_assoc.
Qed.

Lemma slice_last_length (k : nat) (l : list A) :
  length (slice_last k l) = Nat.min k (length l).
Proof. unfold slice_last. rewrite length_skipn. lia. Qed.

Lemma slice_last_short (k : nat) (l : list A) :
  (length l <= k)%nat -> slice_last k l = l.
Proof.
  intros H. unfold slice_last.
  replace (length l - k)%nat with 0%nat by lia. reflexivity.
Qed.

Lemma slice_last_app (k : nat) (l : list A) :
  exists older, l = older ++ slice_last k l.
Proof.
  exists (firstn (length l - k) l). unfold slice_last.
  now rewrite firstn_skipn.
Qed.

Lemma slice_last_idem (k : nat) (l : list A) :
  slice_last k (slice_last k l) = slice_last k l.
Proof. apply slice_last_short. rewrite slice_last_length. lia. Qed.

Lemma is_empty_nil (l : list A) : is_empty l = true <-> l = [].
Proof. destruct l; simpl; split; congruence. Qed.

Lemma existsb_nil_of_empty (q : A -> bool) (l : list A) :
  is_empty l = true -> existsb q l = false.
Proof. intros H. apply is_empty_nil in H. now subst. Qed.
End Loops.

Module TrapFacts.
Import FlashSandwichTrap Events.

Lemma recent_blocks_slice (w : list CollectedData.t) :
  recent_blocks w = slice_last 2 w.
Proof.
  unfold recent_blocks. destruct (Nat.leb_spec 2 (length w)); [reflexivity|].
  symmetry. apply slice_last_short. lia.
Qed.

Lemma find_flash_loans_filter (self : t) (bs : list CollectedData.t) :
  find_flash_loans self bs = List.filter (big_loan self) (all_loans bs).
Proof. unfold find_flash_loans. now rewrite fold_nested_filter. Qed.

Lemma find_high_impact_swaps_filter (self : t) (bs : list CollectedData.t) :
  find_high_impact_swaps self bs = List.filter (big_swap self) (all_swaps bs).
Proof. unfold find_high_impact_swaps. now rewrite fold_nested_filter. Qed.

Lemma scan_swaps_existsb (loan : FlashLoan.t) (swaps : list Swap.t) :
  scan_swaps loan swaps = existsb (related loan) swaps.
Proof.
  induction swaps as [|s swaps IH]; simpl; [reflexivity|].
  unfold related at 1.
  destruct (String.eqb _ _); [reflexivity|].
  destruct (String.eqb _ _); [reflexivity|]. exact IH.
Qed.

Lemma scan_loans_existsb (loans : list FlashLoan.t) (swaps : list Swap.t) :
  scan_loans loans swaps
  = existsb (fun loan => existsb (related loan) swaps) loans.
Proof.
  induction loans as [|l loans IH]; simpl; [reflexivity|].
  rewrite scan_swaps_existsb. destruct (existsb _ swaps); [reflexivity|exact IH].
Qed.

Lemma existsb_no_swaps (loans : list FlashLoan.t) :
  existsb (fun loan => existsb (related loan) []) loans = false.
Proof. induction loans; simpl; auto. Qed.

(** The decision as one expression over the inspected bundles. *)
Lemma should_respond_existsb (self : t) (w : list CollectedData.t) :
  should_respond self w
  = existsb
      (fun loan =>
         existsb (related loan)
                 (List.filter (big_swap self) (all_swaps (recent_blocks w))))
      (List.filter (big_loan self) (all_loans (recent_blocks w))).
Proof.
  unfold should_respond.
  rewrite find_flash_loans_filter, find_high_impact_swaps_filter.
  destruct w as [|b w]; [reflexivity|].
  change (length (b :: w) <? 1)%nat with false. cbv iota.
  set (loans := List.filter _ (all_loans _)).
  set (swaps := List.filter _ (all_swaps _)).
  destruct loans as [|l loans]; [reflexivity|].
  destruct swaps as [|s swaps].
  - simpl is_empty. cbv iota. symmetry. apply existsb_no_swaps.
  - simpl is_empty. cbv iota. apply scan_loans_existsb.
Qed.

(** The decision is positive exactly when a related pair of a qualifying
    loan and a qualifying swap lies in the inspected bundles. *)
Lemma should_respond_true_iff (self : t) (w : list CollectedData.t) :
  should_respond self w = true <->
  exists loan swap,
    In loan (all_loans (recent_blocks w)) /\
    In swap (all_swaps (recent_blocks w)) /\
    big_loan self loan = true /\ big_swap self swap = true /\
    related loan swap = true.
Proof.
  rewrite should_respond_existsb, existsb_exists. split.
  - intros (loan & Hl & Hx). apply existsb_exists in Hx as (swap & Hs & Hr).
    apply List.filter_In in Hl as [Hl Hbl]. apply List.filter_In in Hs as [Hs Hbs].
    exists loan, swap. auto.
  - intros (loan & swap & Hl & Hs & Hbl & Hbs & Hr).
    exists loan. split; [apply List.filter_In; auto|].
    apply existsb_exists. exists swap. split; [apply List.filter_In; auto|exact Hr].
Qed.

Lemma alert_lists_from (self : t) (bs : list CollectedData.t)
      (ls : list LoanEntry.t) (ss : list SwapEntry.t) :
  fold_left
    (fun '(flash_loans, swaps) block =>
       (flash_loans ++
          map loan_entry
            (List.filter
               (fun loan => ge (FlashLoan.amount loan) (min_flash_loan_size self))
               (CollectedData.flash_loans block)),
        swaps ++
          map swap_entry
            (List.filter
               (fun swap => ge (Swap.price_impact swap) (min_price_impact self))
               (CollectedData.swaps block))))
    bs (ls, ss)
  = (ls ++ map loan_entry (List.filter (big_loan self) (all_loans bs)),
     ss ++ map swap_entry (List.filter (big_swap self) (all_swaps bs))).
Proof.
  revert ls ss. induction bs as [|b bs IH]; intros ls ss; simpl.
  - now rewrite !app_nil_r.
  - rewrite IH. unfold all_loans, all_swaps. simpl.
    rewrite !List.filter_app, !List.map_app, <- !app_assoc. reflexivity.
Qed.

Lemma alert_lists_filter (self : t) (bs : list CollectedData.t) :
  alert_lists self bs
  = (map loan_entry (List.filter (big_loan self) (all_loans bs)),
     map swap_entry (List.filter (big_swap self) (all_swaps bs))).
Proof. unfold alert_lists. now rewrite alert_lists_from. Qed.

Lemma get_alert_details_eq (self : t) (w : list CollectedData.t) :
  get_alert_details self w
  = {| Alert.attack_type := "flash_loan_sandwich";
       Alert.severity := "HIGH";
       Alert.flash_loans :=
         map loan_entry (List.filter (big_loan self) (all_loans (slice_last 2 w)));
       Alert.high_impact_swaps :=
         map swap_entry (List.filter (big_swap self) (all_swaps (slice_last 2 w)));
       Alert.blocks_analyzed := Z.of_nat (length w) |}.
Proof. unfold get_alert_details. now rewrite alert_lists_filter. Qed.

End TrapFacts.

Example main_detects :
  FlashSandwichTrap.should_respond
    (FlashSandwichTrap.init FlashSandwichTrap.empty_config) historical = true.
Proof. vm_compute. reflexivity. Qed.


(** ** The programs on the store compute the value-level functions *)

Module StoreFacts.
Import Store Events.

(** *** Reading is stable under store extension *)

Lemma read_items_mono (h h' : heap) (l : loc) (xs : list loc) :
  h ⊆ h' -> read_items h l = Some xs -> read_items h' l = Some xs.
Proof.
  unfold read_items. intros Hsub H.
  destruct (h !! l) as [o|] eqn:E; [|discriminate].
  now rewrite (lookup_weaken _ _ _ _ E Hsub).
Qed.

Lemma read_loan_mono (h h' : heap) (l : loc) (v : FlashLoan.t) :
  h ⊆ h' -> read_loan h l = Some v -> read_loan h' l = Some v.
Proof.
  unfold read_loan. intros Hsub H.
  destruct (h !! l) as [o|] eqn:E; [|discriminate].
  now rewrite (lookup_weaken _ _ _ _ E Hsub).
Qed.

Lemma read_swap_mono (h h' : heap) (l : loc) (v : Swap.t) :
  h ⊆ h' -> read_swap h l = Some v -> read_swap h' l = Some v.
Proof.
  unfold read_swap. intros Hsub H.
  destruct (h !! l) as [o|] eqn:E; [|discriminate].
  now rewrite (lookup_weaken _ _ _ _ E Hsub).
Qed.

Lemma read_loan_entry_mono (h h' : heap) (l : loc) (v : LoanEntry.t) :
  h ⊆ h' -> read_loan_entry h l = Some v -> read_loan_entry h' l = Some v.
Proof.
  unfold read_loan_entry. intros Hsub H.
  destruct (h !! l) as [o|] eqn:E; [|discriminate].
  now rewrite (lookup_weaken _ _ _ _ E Hsub).
Qed.

Lemma read_swap_entry_mono (h h' : heap) (l : loc) (v : SwapEntry.t) :
  h ⊆ h' -> read_swap_entry h l = Some v -> read_swap_entry h' l = Some v.
Proof.
  unfold read_swap_entry. intros Hsub H.
  destruct (h !! l) as [o|] eqn:E; [|discriminate].
  now rewrite (lookup_weaken _ _ _ _ E Hsub).
Qed.

Lemma read_list_Some {A : Type} (read : heap -> loc -> option A)
      (h : heap) (l : loc) (vs : list A) :
  read_list read h l = Some vs <->
  exists xs, h !! l = Some (OList xs) /\
             Forall2 (fun x v => read h x = Some v) xs vs.
Proof.
  unfold read_list, read_items. split.
  - intros H. destruct (h !! l) as [[xs| | | | | |]|]; try discriminate.
    exists xs. split; [reflexivity|]. now apply mapM_Some.
  - intros (xs & -> & H). now apply mapM_Some.
Qed.

Lemma read_list_mono {A : Type} (read : heap -> loc -> option A)
      (h h' : heap) (l : loc) (vs : list A) :
  (forall x v, read h x = Some v -> read h' x = Some v) ->
  h ⊆ h' -> read_list read h l = Some vs -> read_list read h' l = Some vs.
Proof.
  intros Hread Hsub H. apply read_list_Some in H as (xs & Hl & Hxs).
  apply read_list_Some. exists xs. split.
  - exact (lookup_weaken _ _ _ _ Hl Hsub).
  - eapply Forall2_impl; [exact Hxs|]. auto.
Qed.

Lemma read_block_Some (h : heap) (b : loc) (d : CollectedData.t) :
  read_block h b = Some d <->
  exists fl sw,
    h !! b = Some (OCollectedData fl sw (CollectedData.block_number d)
                                  (CollectedData.timestamp d)) /\
    read_list read_loan h fl = Some (CollectedData.flash_loans d) /\
    read_list read_swap h sw = Some (CollectedData.swaps d).
Proof.
  unfold read_block. split.
  - intros H. destruct (h !! b) as [[| | |fl sw bn ts| | |]|]; try discriminate.
    destruct (read_list read_loan h fl) as [lv|] eqn:El; [|discriminate].
    destruct (read_list read_swap h sw) as [sv|] eqn:Es; [|discriminate].
    injection H as <-. exists fl, sw. simpl. auto.
  - intros (fl & sw & -> & -> & ->). now destruct d.
Qed.

Lemma read_block_mono (h h' : heap) (b : loc) (d : CollectedData.t) :
  h ⊆ h' -> read_block h b = Some d -> read_block h' b = Some d.
Proof.
  intros Hsub H. apply read_block_Some in H as (fl & sw & Hb & Hl & Hs).
  apply read_block_Some. exists fl, sw. split; [|split].
  - exact (lookup_weaken _ _ _ _ Hb Hsub).
  - apply (read_list_mono read_loan h h'); auto.
    intros x v. now apply read_loan_mono.
  - apply (read_list_mono read_swap h h'); auto.
    intros x v. now apply read_swap_mono.
Qed.

Lemma read_window_mono (h h' : heap) (hd : loc) (w : list CollectedData.t) :
  h ⊆ h' -> read_window h hd = Some w -> read_window h' hd = Some w.
Proof.
  intros Hsub. unfold read_window.
  apply read_list_mono; auto.
  intros x v. now apply read_block_mono.
Qed.

Lemma read_alert_mono (h h' : heap) (a : loc) (v : Alert.t) :
  h ⊆ h' -> read_alert h a = Some v -> read_alert h' a = Some v.
Proof.
  unfold read_alert. intros Hsub H.
  destruct (h !! a) as [[| | | | | |ty sev fl sw n]|] eqn:E; try discriminate.
  rewrite (lookup_weaken _ _ _ _ E Hsub).
  destruct (read_list read_loan_entry h fl) as [lv|] eqn:El; [|discriminate].
  destruct (read_list read_swap_entry h sw) as [sv|] eqn:Es; [|discriminate].
  rewrite (read_list_mono _ _ _ _ _ (fun x v => read_loan_entry_mono h h' x v Hsub) Hsub El).
  rewrite (read_list_mono _ _ _ _ _ (fun x v => read_swap_entry_mono h h' x v Hsub) Hsub Es).
  exact H.
Qed.

(** *** Primitive steps *)

Lemma new_fresh (o : obj) (h : heap) :
  exists l, new o h = Some (l, <[l := o]> h) /\ h !! l = None.
Proof.
  exists (fresh (dom h)). split; [reflexivity|].
  apply not_elem_of_dom, is_fresh.
Qed.

Lemma new_subseteq (h : heap) (l : loc) (o : obj) :
  h !! l = None -> h ⊆ <[l := o]> h.
Proof. intros H. now apply insert_subseteq. Qed.

Lemma items_run (h : heap) (l : loc) (xs : list loc) :
  h !! l = Some (OList xs) -> items l h = Some (xs, h).
Proof. unfold items. now intros ->. Qed.

Lemma loan_run (h0 h : heap) (l : loc) (v : FlashLoan.t) :
  h0 ⊆ h -> read_loan h0 l = Some v -> loan l h = Some (v, h).
Proof.
  intros Hsub H. apply (read_loan_mono _ _ _ _ Hsub) in H.
  unfold read_loan in H. unfold loan.
  destruct (h !! l) as [[]|]; try discriminate. now injection H as ->.
Qed.

Lemma swap_run (h0 h : heap) (l : loc) (v : Swap.t) :
  h0 ⊆ h -> read_swap h0 l = Some v -> swap l h = Some (v, h).
Proof.
  intros Hsub H. apply (read_swap_mono _ _ _ _ Hsub) in H.
  unfold read_swap in H. unfold swap.
  destruct (h !! l) as [[]|]; try discriminate. now injection H as ->.
Qed.

Lemma block_flash_loans_run (h0 h : heap) (b : loc) (d : CollectedData.t) :
  h0 ⊆ h -> read_block h0 b = Some d ->
  exists fl ls,
    block_flash_loans b h = Some (fl, h) /\
    h !! fl = Some (OList ls) /\
    loans_at h0 ls (CollectedData.flash_loans d).
Proof.
  intros Hsub H. apply read_block_Some in H as (fl & sw & Hb & Hl & _).
  apply read_list_Some in Hl as (ls & Hfl & Hls).
  exists fl, ls. unfold block_flash_loans.
  rewrite (lookup_weaken _ _ _ _ Hb Hsub), (lookup_weaken _ _ _ _ Hfl Hsub).
  auto.
Qed.

Lemma block_swaps_run (h0 h : heap) (b : loc) (d : CollectedData.t) :
  h0 ⊆ h -> read_block h0 b = Some d ->
  exists sw ss,
    block_swaps b h = Some (sw, h) /\
    h !! sw = Some (OList ss) /\
    swaps_at h0 ss (CollectedData.swaps d).
Proof.
  intros Hsub H. apply read_block_Some in H as (fl & sw & Hb & _ & Hs).
  apply read_list_Some in Hs as (ss & Hsw & Hss).
  exists sw, ss. unfold block_swaps.
  rewrite (lookup_weaken _ _ _ _ Hb Hsub), (lookup_weaken _ _ _ _ Hsw Hsub).
  auto.
Qed.

Lemma concat_singletons {A : Type} (p : A -> bool) (vs : list A) :
  List.concat (List.map (fun v => if p v then [v] else []) vs) = List.filter p vs.
Proof.
  induction vs as [|v vs IH]; simpl; [reflexivity|].
  rewrite IH. now destruct (p v).
Qed.

Lemma concat_filters {A B : Type} (p : A -> bool) (f : B -> list A)
      (bs : list B) :
  List.concat (List.map (fun b => List.filter p (f b)) bs)
  = List.filter p (List.concat (List.map f bs)).
Proof.
  induction bs as [|b bs IH]; simpl; [reflexivity|].
  now rewrite IH, List.filter_app.
Qed.

(** *** Loops that fill a local list *)

Section Appending.
Variables (h0 : heap) (dst : loc).
Hypothesis dst_new : h0 !! dst = None.

Lemma for_each_appends {X V T : Type}
      (R : X -> V -> Prop) (Rout : loc -> T -> Prop) (out : V -> list T)
      (body : X -> M unit) :
  (forall x v, R x v ->
               appends_to h0 dst (body x) (fun new => Forall2 Rout new (out v))) ->
  forall xs vs,
    Forall2 R xs vs ->
    appends_to h0 dst (for_each xs body)
               (fun new => Forall2 Rout new (List.concat (List.map out vs))).
Proof.
  intros Hbody xs vs HR.
  induction HR as [|x v xs vs Hxv HR IH]; intros h acc Hsub Hacc.
  - exists []. simpl. split; [|constructor].
    unfold ret. rewrite app_nil_r, insert_id by exact Hacc. reflexivity.
  - destruct (Hbody x v Hxv h acc Hsub Hacc) as (n1 & Hrun & Hn1).
    destruct (IH (<[dst := OList (acc ++ n1)]> h) (acc ++ n1)) as (n2 & Hrest & Hn2).
    + now apply insert_subseteq_r.
    + apply lookup_insert_eq.
    + exists (n1 ++ n2). split.
      * simpl. unfold bind at 1. rewrite Hrun, Hrest.
        now rewrite insert_insert_eq, app_assoc.
      * simpl. now apply Forall2_app.
Qed.

Variable self : FlashSandwichTrap.t.

Lemma loan_step_appends (l : loc) (v : FlashLoan.t) :
  read_loan h0 l = Some v ->
  appends_to h0 dst
    (lv <- loan l ;;
     if ge (FlashLoan.amount lv) (FlashSandwichTrap.min_flash_loan_size self)
     then append dst l else ret tt)
    (fun new => loans_at h0 new (if big_loan self v then [v] else [])).
Proof.
  intros Hl h acc Hsub Hacc. unfold bind.
  rewrite (loan_run h0 h l v Hsub Hl). unfold big_loan.
  destruct (ge _ _).
  - exists [l]. unfold append. rewrite Hacc. split; [reflexivity|].
    now repeat constructor.
  - exists []. unfold ret. rewrite app_nil_r, insert_id by exact Hacc.
    split; [reflexivity|constructor].
Qed.

Lemma swap_step_appends (s : loc) (v : Swap.t) :
  read_swap h0 s = Some v ->
  appends_to h0 dst
    (sv <- swap s ;;
     if ge (Swap.price_impact sv) (FlashSandwichTrap.min_price_impact self)
     then append dst s else ret tt)
    (fun new => swaps_at h0 new (if big_swap self v then [v] else [])).
Proof.
  intros Hs h acc Hsub Hacc. unfold bind.
  rewrite (swap_run h0 h s v Hsub Hs). unfold big_swap.
  destruct (ge _ _).
  - exists [s]. unfold append. rewrite Hacc. split; [reflexivity|].
    now repeat constructor.
  - exists []. unfold ret. rewrite app_nil_r, insert_id by exact Hacc.
    split; [reflexivity|constructor].
Qed.

(** Step 1 of [should_respond]. *)
Lemma find_flash_loans_appends (bs : list loc) (w : list CollectedData.t) :
  blocks_at h0 bs w ->
  appends_to h0 dst
    (for_each bs (fun block =>
       fl <- block_flash_loans block ;;
       ls <- items fl ;;
       for_each ls (fun l =>
         lv <- loan l ;;
         if ge (FlashLoan.amount lv)
               (FlashSandwichTrap.min_flash_loan_size self)
         then append dst l
         else ret tt)))
    (fun new => loans_at h0 new (List.filter (big_loan self) (all_loans w))).
Proof.
  intros Hbs. unfold all_loans. rewrite <- concat_filters.
  refine (for_each_appends _ _ _ _ _ bs w Hbs).
  intros b d Hb h acc Hsub Hacc.
  destruct (block_flash_loans_run h0 h b d Hsub Hb) as (fl & ls & Hfl & Hitems & Hls).
  unfold bind at 1. rewrite Hfl.
  unfold bind at 1. rewrite (items_run h fl ls Hitems).
  rewrite <- concat_singletons.
  refine (for_each_appends _ _ _ _ _ ls _ Hls h acc Hsub Hacc).
  intros l v. apply loan_step_appends.
Qed.

(** Step 2 of [should_respond]. *)
Lemma find_high_impact_swaps_appends (bs : list loc)
      (w : list CollectedData.t) :
  blocks_at h0 bs w ->
  appends_to h0 dst
    (for_each bs (fun block =>
       sw <- block_swaps block ;;
       ss <- items sw ;;
       for_each ss (fun s =>
         sv <- swap s ;;
         if ge (Swap.price_impact sv)
               (FlashSandwichTrap.min_price_impact self)
         then append dst s
         else ret tt)))
    (fun new => swaps_at h0 new (List.filter (big_swap self) (all_swaps w))).
Proof.
  intros Hbs. unfold all_swaps. rewrite <- concat_filters.
  refine (for_each_appends _ _ _ _ _ bs w Hbs).
  intros b d Hb h acc Hsub Hacc.
  destruct (block_swaps_run h0 h b d Hsub Hb) as (sw & ss & Hsw & Hitems & Hss).
  unfold bind at 1. rewrite Hsw.
  unfold bind at 1. rewrite (items_run h sw ss Hitems).
  rewrite <- concat_singletons.
  refine (for_each_appends _ _ _ _ _ ss _ Hss h acc Hsub Hacc).
  intros s v. apply swap_step_appends.
Qed.

End Appending.

(** *** Step 3: the scan reads and never writes *)

Lemma scan_swaps_run (h0 h : heap) (l : loc) (lv : FlashLoan.t)
      (ss : list loc) (svs : list Swap.t) :
  h0 ⊆ h -> read_loan h0 l = Some lv -> swaps_at h0 ss svs ->
  scan_swaps l ss h = Some (FlashSandwichTrap.scan_swaps lv svs, h).
Proof.
  intros Hsub Hl Hss. induction Hss as [|s sv ss svs Hs Hss IH]; simpl.
  - reflexivity.
  - unfold bind at 1. rewrite (loan_run h0 h l lv Hsub Hl).
    unfold bind at 1. rewrite (swap_run h0 h s sv Hsub Hs).
    destruct (String.eqb _ _); [reflexivity|].
    destruct (String.eqb _ _); [reflexivity|]. exact IH.
Qed.

Lemma scan_loans_run (h0 h : heap) (ls ss : list loc)
      (lvs : list FlashLoan.t) (svs : list Swap.t) :
  h0 ⊆ h -> loans_at h0 ls lvs -> swaps_at h0 ss svs ->
  scan_loans ls ss h = Some (FlashSandwichTrap.scan_loans lvs svs, h).
Proof.
  intros Hsub Hls Hss. induction Hls as [|l lv ls lvs Hl Hls IH]; simpl.
  - reflexivity.
  - unfold bind at 1. rewrite (scan_swaps_run h0 h l lv ss svs Hsub Hl Hss).
    destruct (FlashSandwichTrap.scan_swaps lv svs); [reflexivity|exact IH].
Qed.

Lemma is_empty_Forall2 {A B : Type} (R : A -> B -> Prop)
      (xs : list A) (ys : list B) :
  Forall2 R xs ys -> is_empty xs = is_empty ys.
Proof. now intros []. Qed.

Lemma blocks_at_mono (h h' : heap) (bs : list loc) (w : list CollectedData.t) :
  h ⊆ h' -> blocks_at h bs w -> blocks_at h' bs w.
Proof.
  intros Hsub H. eapply Forall2_impl; [exact H|].
  intros b d. now apply read_block_mono.
Qed.

Lemma loans_at_mono (h h' : heap) (ls : list loc) (vs : list FlashLoan.t) :
  h ⊆ h' -> loans_at h ls vs -> loans_at h' ls vs.
Proof.
  intros Hsub H. eapply Forall2_impl; [exact H|].
  intros l v. now apply read_loan_mono.
Qed.

Lemma blocks_at_slice (h : heap) (k : nat) (bs : list loc)
      (w : list CollectedData.t) :
  blocks_at h bs w -> blocks_at h (slice_last k bs) (slice_last k w).
Proof.
  intros H. unfold slice_last. rewrite (Forall2_length _ _ _ H).
  now apply Forall2_drop.
Qed.

Lemma read_window_Some (h : heap) (hd : loc) (w : list CollectedData.t) :
  read_window h hd = Some w <->
  exists bs, h !! hd = Some (OList bs) /\ blocks_at h bs w.
Proof. apply read_list_Some. Qed.

(** *** [should_respond] on the store *)

(** The choice of [recent_blocks]: a new list, or the window itself. *)
Lemma recent_blocks_run (h : heap) (hd : loc) (bs : list loc)
      (w : list CollectedData.t) :
  h !! hd = Some (OList bs) -> blocks_at h bs w ->
  exists rb rbs h1,
    (if (2 <=? length bs)%nat then slice 2 hd else ret hd) h = Some (rb, h1) /\
    h ⊆ h1 /\ h1 !! rb = Some (OList rbs) /\
    blocks_at h rbs (FlashSandwichTrap.recent_blocks w).
Proof.
  intros Hhd Hbs. unfold FlashSandwichTrap.recent_blocks.
  rewrite <- (Forall2_length _ _ _ Hbs).
  destruct (2 <=? length bs)%nat.
  - destruct (new_fresh (OList (slice_last 2 bs)) h) as (rb & Hnew & Hrb).
    exists rb, (slice_last 2 bs), (<[rb := OList (slice_last 2 bs)]> h).
    unfold slice, bind. rewrite (items_run h hd bs Hhd), Hnew.
    split; [reflexivity|]. split; [now apply new_subseteq|].
    split; [apply lookup_insert_eq|now apply blocks_at_slice].
  - exists hd, bs, h. unfold ret. auto.
Qed.

Lemma should_respond_run (self : FlashSandwichTrap.t) (h : heap) (hd : loc)
      (w : list CollectedData.t) :
  read_window h hd = Some w ->
  exists h',
    should_respond self hd h
    = Some (FlashSandwichTrap.should_respond self w, h') /\
    h ⊆ h'.
Proof.
  intros Hw. apply read_window_Some in Hw as (bs & Hhd & Hbs).
  unfold should_respond, FlashSandwichTrap.should_respond.
  rewrite TrapFacts.find_flash_loans_filter,
          TrapFacts.find_high_impact_swaps_filter.
  unfold len. unfold bind at 1. unfold bind at 1.
  rewrite (items_run h hd bs Hhd). unfold ret at 1.
  rewrite (Forall2_length _ _ _ Hbs).
  destruct (length w <? 1)%nat; [exists h; now split|].
  rewrite <- (Forall2_length _ _ _ Hbs).
  destruct (recent_blocks_run h hd bs w Hhd Hbs)
    as (rb & rbs & h1 & Hrb & Hsub1 & Hitems & Hrbs).
  unfold bind at 1. rewrite Hrb.
  apply (blocks_at_mono h h1 _ _ Hsub1) in Hrbs.
  set (recent := FlashSandwichTrap.recent_blocks w) in *.
  (* flash_loans = [] *)
  destruct (new_fresh (OList []) h1) as (fl & Hnew & Hfl).
  unfold bind at 1. rewrite Hnew.
  pose proof (new_subseteq h1 fl (OList []) Hfl) as Hsub2.
  unfold bind at 1.
  rewrite (items_run _ rb rbs (lookup_weaken _ _ _ _ Hitems Hsub2)).
  destruct (find_flash_loans_appends h1 fl Hfl self rbs recent Hrbs
              (<[fl := OList []]> h1) [] Hsub2 (lookup_insert_eq _ _ _))
    as (ls & Hloop & Hls).
  unfold bind at 1. rewrite Hloop, insert_insert_eq. simpl app.
  set (h3 := <[fl := OList ls]> h1).
  assert (Hsub3 : h1 ⊆ h3) by now apply new_subseteq.
  assert (Hfl3 : h3 !! fl = Some (OList ls)) by apply lookup_insert_eq.
  unfold bind at 1. rewrite (items_run h3 fl ls Hfl3).
  rewrite (is_empty_Forall2 _ _ _ Hls).
  destruct (is_empty (List.filter _ (all_loans recent))).
  { exists h3. split; [reflexivity|]. now transitivity h1. }
  (* high_impact_swaps = [] *)
  destruct (new_fresh (OList []) h3) as (sw & Hnew' & Hsw).
  unfold bind at 1. rewrite Hnew'.
  pose proof (new_subseteq h3 sw (OList []) Hsw) as Hsub4.
  assert (Hsub13 : h1 ⊆ <[sw := OList []]> h3) by now transitivity h3.
  unfold bind at 1.
  rewrite (items_run _ rb rbs (lookup_weaken _ _ _ _ Hitems Hsub13)).
  destruct (find_high_impact_swaps_appends h3 sw Hsw self rbs recent
              (blocks_at_mono h1 h3 _ _ Hsub3 Hrbs)
              (<[sw := OList []]> h3) [] Hsub4 (lookup_insert_eq _ _ _))
    as (ss & Hloop' & Hss).
  unfold bind at 1. rewrite Hloop', insert_insert_eq. simpl app.
  set (h5 := <[sw := OList ss]> h3).
  assert (Hsub5 : h3 ⊆ h5) by now apply new_subseteq.
  assert (Hsw5 : h5 !! sw = Some (OList ss)) by apply lookup_insert_eq.
  unfold bind at 1. rewrite (items_run h5 sw ss Hsw5).
  rewrite (is_empty_Forall2 _ _ _ Hss).
  assert (Hall : h ⊆ h5).
  { transitivity h1; [exact Hsub1|]. now transitivity h3. }
  destruct (is_empty (List.filter _ (all_swaps recent))).
  { exists h5. now split. }
  unfold bind at 1.
  rewrite (items_run h5 fl ls (lookup_weaken _ _ _ _ Hfl3 Hsub5)).
  unfold bind at 1. rewrite (items_run h5 sw ss Hsw5).
  exists h5. split; [|exact Hall].
  apply (scan_loans_run h3 h5); [exact Hsub5| |exact Hss].
  now apply (loans_at_mono h1 h3).
Qed.

(** *** [get_alert_details] on the store *)

Lemma stable_subseteq (h h' : heap) : h ⊆ h' -> stable h h'.
Proof. intros Hsub l o Hl _. exact (lookup_weaken _ _ _ _ Hl Hsub). Qed.

Lemma stable_trans (h1 h2 h3 : heap) :
  stable h1 h2 -> stable h2 h3 -> stable h1 h3.
Proof. intros H12 H23 l o Hl Ho. apply H23; auto. Qed.

Lemma stable_write_list (h : heap) (l : loc) (xs ys : list loc) :
  h !! l = Some (OList xs) -> stable h (<[l := OList ys]> h).
Proof.
  intros Hl l' o Hl' Ho. destruct (decide (l = l')) as [->|Hne].
  - rewrite Hl in Hl'. injection Hl' as <-. now destruct (Ho xs).
  - now rewrite lookup_insert_ne.
Qed.

Lemma loan_entries_at_stable (h h' : heap) (es : list loc)
      (vs : list LoanEntry.t) :
  stable h h' -> loan_entries_at h es vs -> loan_entries_at h' es vs.
Proof.
  intros Hst H. eapply Forall2_impl; [exact H|].
  intros e v. unfold read_loan_entry.
  destruct (h !! e) as [[]|] eqn:E; try discriminate.
  intros Hv. now rewrite (Hst _ _ E).
Qed.

Lemma swap_entries_at_stable (h h' : heap) (es : list loc)
      (vs : list SwapEntry.t) :
  stable h h' -> swap_entries_at h es vs -> swap_entries_at h' es vs.
Proof.
  intros Hst H. eapply Forall2_impl; [exact H|].
  intros e v. unfold read_swap_entry.
  destruct (h !! e) as [[]|] eqn:E; try discriminate.
  intros Hv. now rewrite (Hst _ _ E).
Qed.

Section Entries.
Variable self : FlashSandwichTrap.t.
Variable h0 : heap.

Lemma loan_entries_run (ls : list loc) (vs : list FlashLoan.t) :
  loans_at h0 ls vs ->
  forall h, h0 ⊆ h ->
  exists es h',
    loan_entries self ls h = Some (es, h') /\ h ⊆ h' /\
    loan_entries_at h' es
      (map FlashSandwichTrap.loan_entry (List.filter (big_loan self) vs)).
Proof.
  induction 1 as [|l v ls vs Hl Hls IH]; intros h Hsub; simpl.
  - exists [], h. repeat split; [reflexivity|constructor].
  - unfold bind at 1. rewrite (loan_run h0 h l v Hsub Hl).
    unfold big_loan at 1. destruct (ge _ _); [|now apply IH].
    destruct (new_fresh (OLoanEntry (FlashSandwichTrap.loan_entry v)) h)
      as (e & Hnew & He).
    unfold bind at 1. rewrite Hnew.
    pose proof (new_subseteq h e (OLoanEntry (FlashSandwichTrap.loan_entry v)) He)
      as Hsub1.
    destruct (IH _ (transitivity Hsub Hsub1)) as (es & h' & Hrun & Hsub' & Hes).
    exists (e :: es), h'. unfold bind at 1. rewrite Hrun.
    split; [reflexivity|]. split; [now transitivity (<[e := OLoanEntry (FlashSandwichTrap.loan_entry v)]> h)|].
    simpl. constructor; [|exact Hes].
    unfold read_loan_entry.
    now rewrite (lookup_weaken _ _ _ _ (lookup_insert_eq _ _ _) Hsub').
Qed.

Lemma swap_entries_run (ss : list loc) (vs : list Swap.t) :
  swaps_at h0 ss vs ->
  forall h, h0 ⊆ h ->
  exists es h',
    swap_entries self ss h = Some (es, h') /\ h ⊆ h' /\
    swap_entries_at h' es
      (map FlashSandwichTrap.swap_entry (List.filter (big_swap self) vs)).
Proof.
  induction 1 as [|s v ss vs Hs Hss IH]; intros h Hsub; simpl.
  - exists [], h. repeat split; [reflexivity|constructor].
  - unfold bind at 1. rewrite (swap_run h0 h s v Hsub Hs).
    unfold big_swap at 1. destruct (ge _ _); [|now apply IH].
    destruct (new_fresh (OSwapEntry (FlashSandwichTrap.swap_entry v)) h)
      as (e & Hnew & He).
    unfold bind at 1. rewrite Hnew.
    pose proof (new_subseteq h e (OSwapEntry (FlashSandwichTrap.swap_entry v)) He)
      as Hsub1.
    destruct (IH _ (transitivity Hsub Hsub1)) as (es & h' & Hrun & Hsub' & Hes).
    exists (e :: es), h'. unfold bind at 1. rewrite Hrun.
    split; [reflexivity|]. split; [now transitivity (<[e := OSwapEntry (FlashSandwichTrap.swap_entry v)]> h)|].
    simpl. constructor; [|exact Hes].
    unfold read_swap_entry.
    now rewrite (lookup_weaken _ _ _ _ (lookup_insert_eq _ _ _) Hsub').
Qed.

Variables fl sw : loc.
Hypothesis fl_new : h0 !! fl = None.
Hypothesis sw_new : h0 !! sw = None.
Hypothesis fl_sw : fl <> sw.

(** One iteration of the loop over the recent blocks. *)
Lemma alert_step (b : loc) (d : CollectedData.t) (h : heap)
      (EL : list LoanEntry.t) (ES : list SwapEntry.t) :
  read_block h0 b = Some d ->
  alert_state h0 fl sw h EL ES ->
  exists h',
    (fl' <- block_flash_loans b ;;
     ls <- items fl' ;;
     es <- loan_entries self ls ;;
     _ <- extend fl es ;;
     sw' <- block_swaps b ;;
     ss <- items sw' ;;
     es <- swap_entries self ss ;;
     extend sw es) h = Some (tt, h') /\
    alert_state h0 fl sw h'
      (EL ++ map FlashSandwichTrap.loan_entry
                 (List.filter (big_loan self) (CollectedData.flash_loans d)))
      (ES ++ map FlashSandwichTrap.swap_entry
                 (List.filter (big_swap self) (CollectedData.swaps d))).
Proof.
  intros Hb (Hsub & (accL & HaccL & HEL) & (accS & HaccS & HES)).
  destruct (block_flash_loans_run h0 h b d Hsub Hb) as (fl' & ls & Hfl' & Hitems & Hls).
  unfold bind at 1. rewrite Hfl'.
  unfold bind at 1. rewrite (items_run h fl' ls Hitems).
  destruct (loan_entries_run ls _ Hls h Hsub) as (es & h1 & Hrun & Hsub1 & Hes).
  unfold bind at 1. rewrite Hrun.
  pose proof (lookup_weaken _ _ _ _ HaccL Hsub1) as HaccL1.
  unfold bind at 1. unfold extend at 1. rewrite HaccL1.
  set (h2 := <[fl := OList (accL ++ es)]> h1).
  assert (Hsub2 : h0 ⊆ h2).
  { apply insert_subseteq_r; [exact fl_new|now transitivity h]. }
  assert (Hst2 : stable h h2).
  { eapply stable_trans; [apply stable_subseteq, Hsub1|].
    eapply stable_write_list, HaccL1. }
  destruct (block_swaps_run h0 h2 b d Hsub2 Hb) as (sw' & ss & Hsw' & Hitems' & Hss).
  unfold bind at 1. rewrite Hsw'.
  unfold bind at 1. rewrite (items_run h2 sw' ss Hitems').
  destruct (swap_entries_run ss _ Hss h2 Hsub2) as (es' & h3 & Hrun' & Hsub3 & Hes').
  unfold bind at 1. rewrite Hrun'.
  assert (HaccS3 : h3 !! sw = Some (OList accS)).
  { apply (lookup_weaken h2); [|exact Hsub3].
    unfold h2. rewrite lookup_insert_ne by exact fl_sw.
    exact (lookup_weaken _ _ _ _ HaccS Hsub1). }
  unfold extend. rewrite HaccS3.
  set (h4 := <[sw := OList (accS ++ es')]> h3).
  assert (Hst4 : stable h3 h4) by (eapply stable_write_list, HaccS3).
  assert (Hst24 : stable h2 h4).
  { eapply stable_trans; [apply stable_subseteq, Hsub3|exact Hst4]. }
  exists h4. split; [reflexivity|]. split; [|split].
  - apply insert_subseteq_r; [exact sw_new|now transitivity h2].
  - exists (accL ++ es). split.
    + unfold h4. rewrite lookup_insert_ne by (intros E; now apply fl_sw).
      apply (lookup_weaken h2); [apply lookup_insert_eq|exact Hsub3].
    + apply Forall2_app.
      * apply (loan_entries_at_stable h h4); [|exact HEL].
        eapply stable_trans; [exact Hst2|exact Hst24].
      * apply (loan_entries_at_stable h1 h4); [|exact Hes].
        eapply stable_trans; [|exact Hst24].
        eapply stable_write_list, HaccL1.
  - exists (accS ++ es'). split; [apply lookup_insert_eq|].
    apply Forall2_app.
    + apply (swap_entries_at_stable h h4); [|exact HES].
      eapply stable_trans; [exact Hst2|exact Hst24].
    + apply (swap_entries_at_stable h3 h4); [exact Hst4|exact Hes'].
Qed.

Lemma alert_loop (bs : list loc) (w : list CollectedData.t) :
  blocks_at h0 bs w ->
  forall h EL ES,
    alert_state h0 fl sw h EL ES ->
    exists h',
      for_each bs (fun block =>
        fl' <- block_flash_loans block ;;
        ls <- items fl' ;;
        es <- loan_entries self ls ;;
        _ <- extend fl es ;;
        sw' <- block_swaps block ;;
        ss <- items sw' ;;
        es <- swap_entries self ss ;;
        extend sw es) h = Some (tt, h') /\
      alert_state h0 fl sw h'
        (EL ++ map FlashSandwichTrap.loan_entry
                   (List.filter (big_loan self) (all_loans w)))
        (ES ++ map FlashSandwichTrap.swap_entry
                   (List.filter (big_swap self) (all_swaps w))).
Proof.
  induction 1 as [|b d bs w Hb Hbs IH]; intros h EL ES Hst.
  - exists h. simpl. rewrite !app_nil_r. now split.
  - destruct (alert_step b d h EL ES Hb Hst) as (h1 & Hrun & Hst1).
    destruct (IH _ _ _ Hst1) as (h' & Hrest & Hst').
    exists h'. split.
    + simpl. unfold bind at 1. rewrite Hrun. exact Hrest.
    + unfold all_loans, all_swaps. simpl.
      rewrite !List.filter_app, !List.map_app, !app_assoc. exact Hst'.
Qed.

End Entries.

Lemma get_alert_details_run (self : FlashSandwichTrap.t) (h : heap) (hd : loc)
      (w : list CollectedData.t) :
  read_window h hd = Some w ->
  exists a h',
    get_alert_details self hd h = Some (a, h') /\
    h ⊆ h' /\ h !! a = None /\
    read_alert h' a = Some (FlashSandwichTrap.get_alert_details self w).
Proof.
  intros Hw. apply read_window_Some in Hw as (bs & Hhd & Hbs).
  rewrite TrapFacts.get_alert_details_eq.
  unfold get_alert_details.
  (* recent_blocks = historical_data[-2:] *)
  destruct (new_fresh (OList (slice_last 2 bs)) h) as (rb & Hnew & Hrb).
  unfold bind at 1. unfold slice, bind at 1.
  rewrite (items_run h hd bs Hhd), Hnew.
  set (hA := <[rb := OList (slice_last 2 bs)]> h).
  assert (HsubA : h ⊆ hA) by now apply new_subseteq.
  assert (HrbA : hA !! rb = Some (OList (slice_last 2 bs))) by apply lookup_insert_eq.
  (* flash_loans = [] ; swaps = [] *)
  destruct (new_fresh (OList []) hA) as (fl & Hnewfl & Hfl).
  unfold bind at 1. rewrite Hnewfl.
  set (hB := <[fl := OList []]> hA).
  assert (HsubB : hA ⊆ hB) by now apply new_subseteq.
  destruct (new_fresh (OList []) hB) as (sw & Hnewsw & Hsw).
  unfold bind at 1. rewrite Hnewsw.
  set (hC := <[sw := OList []]> hB).
  assert (HsubC : hB ⊆ hC) by now apply new_subseteq.
  assert (HsubAC : hA ⊆ hC) by now transitivity hB.
  assert (Hne : fl <> sw).
  { intros ->. unfold hB in Hsw. now rewrite lookup_insert_eq in Hsw. }
  assert (HswA : hA !! sw = None) by exact (lookup_weaken_None _ _ _ Hsw HsubB).
  unfold bind at 1. rewrite (items_run hC rb _ (lookup_weaken _ _ _ _ HrbA HsubAC)).
  assert (Hst : alert_state hA fl sw hC [] []).
  { split; [exact HsubAC|]. split.
    - exists []. split; [|constructor].
      apply (lookup_weaken hB); [apply lookup_insert_eq|exact HsubC].
    - exists []. split; [apply lookup_insert_eq|constructor]. }
  destruct (alert_loop self hA fl sw Hfl HswA Hne (slice_last 2 bs) (slice_last 2 w)
              (blocks_at_slice hA 2 bs w (blocks_at_mono h hA _ _ HsubA Hbs))
              hC [] [] Hst)
    as (hD & Hloop & HsubD & (accL & HaccL & HEL) & (accS & HaccS & HES)).
  unfold bind at 1. rewrite Hloop.
  (* len(historical_data) *)
  assert (HsubhD : h ⊆ hD) by now transitivity hA.
  unfold bind at 1. unfold len, bind at 1.
  rewrite (items_run hD hd bs (lookup_weaken _ _ _ _ Hhd HsubhD)). unfold ret.
  rewrite (Forall2_length _ _ _ Hbs).
  set (o := OAlert _ _ _ _ _).
  destruct (new_fresh o hD) as (a & Hnewa & Ha).
  exists a, (<[a := o]> hD). split; [exact Hnewa|].
  pose proof (new_subseteq hD a o Ha) as HsubF.
  split; [now transitivity hD|].
  split; [exact (lookup_weaken_None _ _ _ Ha HsubhD)|].
  unfold read_alert. rewrite lookup_insert_eq. unfold o.
  assert (HL : read_list read_loan_entry (<[a := o]> hD) fl
               = Some (map FlashSandwichTrap.loan_entry
                           (List.filter (big_loan self) (all_loans (slice_last 2 w))))).
  { apply read_list_Some. exists accL.
    split; [exact (lookup_weaken _ _ _ _ HaccL HsubF)|].
    apply (loan_entries_at_stable hD); [now apply stable_subseteq|exact HEL]. }
  assert (HS : read_list read_swap_entry (<[a := o]> hD) sw
               = Some (map FlashSandwichTrap.swap_entry
                           (List.filter (big_swap self) (all_swaps (slice_last 2 w))))).
  { apply read_list_Some. exists accS.
    split; [exact (lookup_weaken _ _ _ _ HaccS HsubF)|].
    apply (swap_entries_at_stable hD); [now apply stable_subseteq|exact HES]. }
  unfold o in HL, HS. now rewrite HL, HS.
Qed.

End StoreFacts.

(** ** Properties of the detector *)

Section Thresholds.
Import FlashSandwichTrap Events.

Lemma ge_true (a b : Q) : ge a b = true <-> (b <= a)%Q.
Proof. unfold ge. apply Qle_bool_iff. Qed.

Lemma big_loan_lower (t1 t2 : t) (loan : FlashLoan.t) :
  (min_flash_loan_size t1 <= min_flash_loan_size t2)%Q ->
  big_loan t2 loan = true -> big_loan t1 loan = true.
Proof.
  unfold big_loan. rewrite !ge_true. intros H12 H2.
  now apply Qle_trans with (min_flash_loan_size t2).
Qed.

Lemma big_swap_lower (t1 t2 : t) (swap : Swap.t) :
  (min_price_impact t1 <= min_price_impact t2)%Q ->
  big_swap t2 swap = true -> big_swap t1 swap = true.
Proof.
  unfold big_swap. rewrite !ge_true. intros H12 H2.
  now apply Qle_trans with (min_price_impact t2).
Qed.

(** A positive decision survives lowering the thresholds. *)
Lemma should_respond_lower (t1 t2 : t) (w : list CollectedData.t) :
  (min_flash_loan_size t1 <= min_flash_loan_size t2)%Q ->
  (min_price_impact t1 <= min_price_impact t2)%Q ->
  should_respond t2 w = true -> should_respond t1 w = true.
Proof.
  intros Hl Hs. rewrite !TrapFacts.should_respond_true_iff.
  intros (loan & swap & Hin & Hin' & Hbl & Hbs & Hr).
  exists loan, swap. repeat split; auto.
  - now apply (big_loan_lower t1 t2).
  - now apply (big_swap_lower t1 t2).
Qed.

Lemma in_all_loans (bs : list CollectedData.t) (loan : FlashLoan.t) :
  In loan (all_loans bs) <->
  exists b, In b bs /\ In loan (CollectedData.flash_loans b).
Proof.
  unfold all_loans. rewrite in_concat. split.
  - intros (l & Hl & Hin). apply in_map_iff in Hl as (b & <- & Hb). eauto.
  - intros (b & Hb & Hin). exists (CollectedData.flash_loans b).
    split; [now apply in_map|exact Hin].
Qed.

Lemma in_all_swaps (bs : list CollectedData.t) (swap : Swap.t) :
  In swap (all_swaps bs) <->
  exists b, In b bs /\ In swap (CollectedData.swaps b).
Proof.
  unfold all_swaps. rewrite in_concat. split.
  - intros (l & Hl & Hin). apply in_map_iff in Hl as (b & <- & Hb). eauto.
  - intros (b & Hb & Hin). exists (CollectedData.swaps b).
    split; [now apply in_map|exact Hin].
Qed.

Lemma filter_none {A : Type} (p : A -> bool) (l : list A) :
  Forall (fun x => p x = false) l -> List.filter p l = [].
Proof.
  induction 1 as [|x l Hx Hl IH]; simpl; [reflexivity|]. now rewrite Hx.
Qed.

Lemma filter_only {A : Type} (p : A -> bool) (pre post : list A) (x : A) :
  p x = true -> Forall (fun y => p y = false) (pre ++ post) ->
  List.filter p (pre ++ x :: post) = [x].
Proof.
  intros Hx Hall. apply Forall_app in Hall as [Hpre Hpost].
  rewrite List.filter_app. simpl. rewrite Hx.
  now rewrite (filter_none p pre Hpre), (filter_none p post Hpost).
Qed.

End Thresholds.

Lemma design_recent_two {A : Type} (w : list A) :
  skipn (length w - Nat.min 2 (length w))%nat w = slice_last 2 w.
Proof.
  unfold slice_last. f_equal. lia.
Qed.

Lemma recent_blocks_design (w : list CollectedData.t) :
  FlashSandwichTrap.recent_blocks w = Design.recent 2 w.
Proof.
  unfold Design.recent. rewrite design_recent_two.
  apply TrapFacts.recent_blocks_slice.
Qed.

Lemma recent_blocks_idem (w : list CollectedData.t) :
  FlashSandwichTrap.recent_blocks (FlashSandwichTrap.recent_blocks w)
  = FlashSandwichTrap.recent_blocks w.
Proof.
  rewrite !TrapFacts.recent_blocks_slice. apply slice_last_idem.
Qed.

(** C1, as the code has it.  The detection pass inspects exactly the last
    [min(2, len(window))] bundles, whatever [max_blocks_between] is: the
    bundles the loops run over are the two most recent ones; the decision
    on a window is the decision on its two most recent bundles; it is
    positive exactly when a related pair of a qualifying loan and a
    qualifying swap lies in those two bundles; and changing
    [max_blocks_between] alone never changes the decision. *)
Theorem should_respond_inspects_last_two
        (self : FlashSandwichTrap.t) (w : list CollectedData.t) :
  FlashSandwichTrap.recent_blocks w = Design.recent 2 w /\
  length (FlashSandwichTrap.recent_blocks w) = Nat.min 2 (length w) /\
  FlashSandwichTrap.should_respond self w
  = FlashSandwichTrap.should_respond self (Design.recent 2 w) /\
  (FlashSandwichTrap.should_respond self w = true <->
   exists b1 loan b2 swap,
     In b1 (Design.recent 2 w) /\ In loan (CollectedData.flash_loans b1) /\
     In b2 (Design.recent 2 w) /\ In swap (CollectedData.swaps b2) /\
     Events.big_loan self loan = true /\ Events.big_swap self swap = true /\
     Events.related loan swap = true) /\
  (forall k : Z,
      FlashSandwichTrap.should_respond
        (FlashSandwichTrap.mk (FlashSandwichTrap.min_price_impact self)
                              (FlashSandwichTrap.min_flash_loan_size self) k) w
      = FlashSandwichTrap.should_respond self w).
Proof.
  split; [apply recent_blocks_design|].
  split; [rewrite TrapFacts.recent_blocks_slice; apply slice_last_length|].
  split.
  { rewrite <- recent_blocks_design, !TrapFacts.should_respond_existsb.
    now rewrite recent_blocks_idem. }
  split.
  { rewrite TrapFacts.should_respond_true_iff, <- recent_blocks_design. split.
    - intros (loan & swap & Hl & Hs & Hbl & Hbs & Hr).
      apply in_all_loans in Hl as (b1 & Hb1 & Hl).
      apply in_all_swaps in Hs as (b2 & Hb2 & Hs).
      exists b1, loan, b2, swap. auto 10.
    - intros (b1 & loan & b2 & swap & Hb1 & Hl & Hb2 & Hs & Hbl & Hbs & Hr).
      exists loan, swap.
      split; [apply in_all_loans; eauto|].
      split; [apply in_all_swaps; eauto|]. auto. }
  intros k. destruct self. reflexivity.
Qed.

(** C1, as stated, fails.  With [max_blocks_between = 2] and a window of
    three bundles, the bundles inspected are not the last three: the
    third-most-recent bundle holds a qualifying loan and a qualifying swap
    of one transaction, and the code answers [False] where the design
    document's detector answers [True]. *)
Lemma third_bundle_not_inspected :
  FlashSandwichTrap.max_blocks_between wide_trap = 2 /\
  Design.recent (Design.look_back wide_trap) attack_then_quiet = attack_then_quiet /\
  FlashSandwichTrap.recent_blocks attack_then_quiet
  <> Design.recent (Design.look_back wide_trap) attack_then_quiet /\
  FlashSandwichTrap.should_respond wide_trap attack_then_quiet = false /\
  Design.should_respond wide_trap attack_then_quiet = true.
Proof.
  split; [reflexivity|]. split; [reflexivity|]. split.
  - intros H. apply (f_equal (@length _)) in H. vm_compute in H. discriminate.
  - split; vm_compute; reflexivity.
Qed.

(** C2, as the code has it.  For every window the alert has severity
    ["HIGH"] and [blocks_analyzed] is the length of the whole window passed
    in, [len(historical_data)]; the number of bundles inspected is
    [min(2, len)], and the two numbers agree exactly when the window holds
    at most two bundles. *)
Theorem get_alert_details_counts_window
        (self : FlashSandwichTrap.t) (w : list CollectedData.t) :
  Alert.severity (FlashSandwichTrap.get_alert_details self w) = "HIGH" /\
  Alert.blocks_analyzed (FlashSandwichTrap.get_alert_details self w)
  = Z.of_nat (length w) /\
  length (Design.recent 2 w) = Nat.min 2 (length w) /\
  (Alert.blocks_analyzed (FlashSandwichTrap.get_alert_details self w)
   = Z.of_nat (length (Design.recent 2 w)) <-> (length w <= 2)%nat).
Proof.
  rewrite TrapFacts.get_alert_details_eq. simpl.
  assert (Hlen : length (Design.recent 2 w) = Nat.min 2 (length w)).
  { unfold Design.recent. rewrite design_recent_two. apply slice_last_length. }
  rewrite Hlen. repeat split; lia.
Qed.

(** C2, as stated, fails.  Under the default configuration the look-back
    is two bundles; on a non-empty window of three bundles the alert
    reports [blocks_analyzed = 3], the length of the window, not [2]. *)
Lemma blocks_analyzed_is_window_length :
  quiet_then_attack <> [] /\
  Alert.blocks_analyzed
    (FlashSandwichTrap.get_alert_details default_trap quiet_then_attack) = 3 /\
  Design.blocks_analyzed default_trap quiet_then_attack = 2 /\
  Alert.blocks_analyzed
    (FlashSandwichTrap.get_alert_details default_trap quiet_then_attack)
  <> Design.blocks_analyzed default_trap quiet_then_attack.
Proof.
  split; [discriminate|]. split; [reflexivity|]. split; [reflexivity|].
  vm_compute. discriminate.
Qed.

(** C3.  Raising either threshold never turns a [False] into a [True]: if
    [should_respond] is false on a window under thresholds [t1], it is
    false on the same window under any thresholds [t2] that are greater or
    equal.  ([max_blocks_between] is not read, so the two traps need not
    even agree on it.) *)
Theorem should_respond_monotone
        (t1 t2 : FlashSandwichTrap.t) (w : list CollectedData.t) :
  (FlashSandwichTrap.min_flash_loan_size t1
   <= FlashSandwichTrap.min_flash_loan_size t2)%Q ->
  (FlashSandwichTrap.min_price_impact t1
   <= FlashSandwichTrap.min_price_impact t2)%Q ->
  FlashSandwichTrap.should_respond t1 w = false ->
  FlashSandwichTrap.should_respond t2 w = false.
Proof.
  intros Hl Hs H1.
  destruct (FlashSandwichTrap.should_respond t2 w) eqn:H2; [|reflexivity].
  rewrite (should_respond_lower t1 t2 w Hl Hs H2) in H1. discriminate.
Qed.

Lemma should_respond_monotone_witness :
  FlashSandwichTrap.should_respond
    (FlashSandwichTrap.mk (6 # 1) (200000 # 1) 1) [data1] = false.
Proof.
  apply (should_respond_monotone default_trap).
  - vm_compute. discriminate.
  - vm_compute. discriminate.
  - vm_compute. reflexivity.
Defined.

Lemma design_recent_within_two (k : nat) (w : list CollectedData.t)
      (b : CollectedData.t) :
  (k <= 2)%nat -> In b (Design.recent k w) ->
  In b (FlashSandwichTrap.recent_blocks w).
Proof.
  intros Hk Hin. rewrite recent_blocks_design. unfold Design.recent in *.
  set (n := (length w - Nat.min k (length w))%nat) in *.
  set (m := (length w - Nat.min 2 (length w))%nat).
  replace n with ((n - m) + m)%nat in Hin by lia.
  rewrite <- skipn_skipn in Hin.
  rewrite <- (firstn_skipn (n - m) (skipn m w)).
  apply in_or_app. now right.
Qed.

(** C5, as the code has it.  Same-transaction sufficiency holds for a
    look-back of at most two bundles: a loan of at least
    [min_flash_loan_size] and a swap of price impact at least
    [min_price_impact], both in bundles among the last [k <= 2] of the
    window and with the same [tx_hash], make [should_respond] true,
    whoever the borrower and the trader are.  With [k = 2] these are the
    two bundles the code inspects under every configuration; with
    [k = max_blocks_between + 1] this is the look-back window whenever
    [max_blocks_between <= 1], as under the default configuration. *)
Theorem same_tx_sufficient
        (self : FlashSandwichTrap.t) (w : list CollectedData.t) (k : nat)
        (b1 b2 : CollectedData.t) (loan : FlashLoan.t) (swap : Swap.t) :
  (k <= 2)%nat ->
  In b1 (Design.recent k w) ->
  In loan (CollectedData.flash_loans b1) ->
  In b2 (Design.recent k w) ->
  In swap (CollectedData.swaps b2) ->
  ge (FlashLoan.amount loan) (FlashSandwichTrap.min_flash_loan_size self) = true ->
  ge (Swap.price_impact swap) (FlashSandwichTrap.min_price_impact self) = true ->
  FlashLoan.tx_hash loan = Swap.tx_hash swap ->
  FlashSandwichTrap.should_respond self w = true.
Proof.
  intros Hk Hb1 Hl Hb2 Hs Hbl Hbs Htx.
  apply (design_recent_within_two k w b1 Hk) in Hb1.
  apply (design_recent_within_two k w b2 Hk) in Hb2.
  apply TrapFacts.should_respond_true_iff. exists loan, swap.
  split; [apply in_all_loans; eauto|].
  split; [apply in_all_swaps; eauto|].
  repeat split; auto.
  unfold Events.related. rewrite Htx, String.eqb_refl. reflexivity.
Qed.

(** The look-back window of the default configuration, borrower and trader
    being two addresses. *)
Lemma same_tx_sufficient_witness :
  FlashLoan.borrower tx3_loan <> Swap.trader tx3_swap /\
  FlashSandwichTrap.should_respond default_trap [data1; tx3_block] = true.
Proof.
  split; [discriminate|].
  apply (same_tx_sufficient default_trap [data1; tx3_block]
                            (Design.look_back default_trap)
                            tx3_block tx3_block tx3_loan tx3_swap).
  - vm_compute. lia.
  - vm_compute. auto.
  - simpl. auto.
  - vm_compute. auto.
  - simpl. auto.
  - vm_compute. reflexivity.
  - vm_compute. reflexivity.
  - reflexivity.
Defined.

(** C5, as stated, fails.  With [max_blocks_between = 2] the look-back
    window [max_blocks_between + 1] of a three-bundle window is the whole
    window; its oldest bundle holds a loan of 500000 and a swap of price
    impact 8.5 of the same transaction; both meet the default thresholds,
    and [should_respond] is false. *)
Lemma same_tx_outside_last_two :
  FlashSandwichTrap.max_blocks_between wide_trap = 2 /\
  In tx3_block
     (Design.recent (Design.look_back wide_trap) [tx3_block; data1; data1]) /\
  In tx3_loan (CollectedData.flash_loans tx3_block) /\
  In tx3_swap (CollectedData.swaps tx3_block) /\
  ge (FlashLoan.amount tx3_loan)
     (FlashSandwichTrap.min_flash_loan_size wide_trap) = true /\
  ge (Swap.price_impact tx3_swap)
     (FlashSandwichTrap.min_price_impact wide_trap) = true /\
  FlashLoan.tx_hash tx3_loan = Swap.tx_hash tx3_swap /\
  FlashSandwichTrap.should_respond wide_trap [tx3_block; data1; data1] = false.
Proof.
  split; [reflexivity|]. split; [vm_compute; auto|].
  split; [simpl; auto|]. split; [simpl; auto|].
  repeat split; vm_compute; reflexivity.
Qed.

(** C6, as the code has it.  Same-actor sufficiency holds for a look-back
    of at most two bundles: a qualifying loan and a qualifying swap in
    bundles among the last [k <= 2] of the window, the loan's borrower
    being the swap's trader, make [should_respond] true; nothing is asked
    of their [tx_hash], so this holds also when the two differ.  With
    [k = 2] these are the two bundles the code inspects under every
    configuration; with [k = max_blocks_between + 1] this is the look-back
    window whenever [max_blocks_between <= 1]. *)
Theorem same_actor_sufficient
        (self : FlashSandwichTrap.t) (w : list CollectedData.t) (k : nat)
        (b1 b2 : CollectedData.t) (loan : FlashLoan.t) (swap : Swap.t) :
  (k <= 2)%nat ->
  In b1 (Design.recent k w) ->
  In loan (CollectedData.flash_loans b1) ->
  In b2 (Design.recent k w) ->
  In swap (CollectedData.swaps b2) ->
  ge (FlashLoan.amount loan) (FlashSandwichTrap.min_flash_loan_size self) = true ->
  ge (Swap.price_impact swap) (FlashSandwichTrap.min_price_impact self) = true ->
  FlashLoan.borrower loan = Swap.trader swap ->
  FlashSandwichTrap.should_respond self w = true.
Proof.
  intros Hk Hb1 Hl Hb2 Hs Hbl Hbs Hactor.
  apply (design_recent_within_two k w b1 Hk) in Hb1.
  apply (design_recent_within_two k w b2 Hk) in Hb2.
  apply TrapFacts.should_respond_true_iff. exists loan, swap.
  split; [apply in_all_loans; eauto|].
  split; [apply in_all_swaps; eauto|].
  repeat split; auto.
  unfold Events.related. rewrite Hactor, String.eqb_refl.
  apply orb_true_r.
Qed.

(** The look-back window of the default configuration, the loan and the
    swap in adjacent blocks and in two transactions. *)
Lemma same_actor_sufficient_witness :
  FlashLoan.tx_hash attacker_loan <> Swap.tx_hash attacker_swap /\
  FlashSandwichTrap.should_respond default_trap [data1; loan_block; swap_block]
  = true.
Proof.
  split; [discriminate|].
  apply (same_actor_sufficient default_trap [data1; loan_block; swap_block]
                               (Design.look_back default_trap)
                               loan_block swap_block attacker_loan attacker_swap).
  - vm_compute. lia.
  - vm_compute. auto.
  - simpl. auto.
  - vm_compute. auto.
  - simpl. auto.
  - vm_compute. reflexivity.
  - vm_compute. reflexivity.
  - reflexivity.
Defined.

(** C6, as stated, fails.  With [max_blocks_between = 2] the look-back
    window [max_blocks_between + 1] of a three-bundle window is the whole
    window; its oldest bundle holds a loan of 500000 by ["0xAttacker"] and
    its newest a swap of price impact 9 by ["0xAttacker"], in another
    transaction; both meet the default thresholds, and [should_respond] is
    false. *)
Lemma same_actor_outside_last_two :
  FlashSandwichTrap.max_blocks_between wide_trap = 2 /\
  In loan_block
     (Design.recent (Design.look_back wide_trap) [loan_block; data1; swap_block]) /\
  In swap_block
     (Design.recent (Design.look_back wide_trap) [loan_block; data1; swap_block]) /\
  In attacker_loan (CollectedData.flash_loans loan_block) /\
  In attacker_swap (CollectedData.swaps swap_block) /\
  ge (FlashLoan.amount attacker_loan)
     (FlashSandwichTrap.min_flash_loan_size wide_trap) = true /\
  ge (Swap.price_impact attacker_swap)
     (FlashSandwichTrap.min_price_impact wide_trap) = true /\
  FlashLoan.borrower attacker_loan = Swap.trader attacker_swap /\
  FlashLoan.tx_hash attacker_loan <> Swap.tx_hash attacker_swap /\
  FlashSandwichTrap.should_respond wide_trap [loan_block; data1; swap_block]
  = false.
Proof.
  split; [reflexivity|]. split; [vm_compute; auto|]. split; [vm_compute; auto|].
  split; [simpl; auto|]. split; [simpl; auto|].
  split; [vm_compute; reflexivity|]. split; [vm_compute; reflexivity|].
  split; [reflexivity|]. split; [discriminate|]. vm_compute. reflexivity.
Qed.

(** C7.  Scenario B.  Under the default configuration, let the look-back
    range of a window hold one loan of amount 500000 and one swap of price
    impact 8.5, both of transaction ["0xTx3"], every other loan and swap
    of the range being below its threshold.  Then [should_respond] is true
    and the alert lists exactly that one loan and that one swap, both with
    [tx] equal to ["0xTx3"]. *)
Theorem scenario_B
        (w : list CollectedData.t) (loan : FlashLoan.t) (swap : Swap.t)
        (loans_before loans_after : list FlashLoan.t)
        (swaps_before swaps_after : list Swap.t) :
  Events.all_loans (FlashSandwichTrap.recent_blocks w)
  = loans_before ++ loan :: loans_after ->
  Events.all_swaps (FlashSandwichTrap.recent_blocks w)
  = swaps_before ++ swap :: swaps_after ->
  (FlashLoan.amount loan == 500000 # 1)%Q ->
  FlashLoan.tx_hash loan = "0xTx3" ->
  (Swap.price_impact swap == 17 # 2)%Q ->
  Swap.tx_hash swap = "0xTx3" ->
  Forall (fun l => Events.big_loan default_trap l = false)
         (loans_before ++ loans_after) ->
  Forall (fun s => Events.big_swap default_trap s = false)
         (swaps_before ++ swaps_after) ->
  FlashSandwichTrap.should_respond default_trap w = true /\
  Alert.flash_loans (FlashSandwichTrap.get_alert_details default_trap w)
  = [ {| LoanEntry.borrower := FlashLoan.borrower loan;
         LoanEntry.amount := FlashLoan.amount loan;
         LoanEntry.tx := "0xTx3" |} ] /\
  Alert.high_impact_swaps (FlashSandwichTrap.get_alert_details default_trap w)
  = [ {| SwapEntry.trader := Swap.trader swap;
         SwapEntry.price_impact := Swap.price_impact swap;
         SwapEntry.tx := "0xTx3" |} ].
Proof.
  intros Hloans Hswaps Hamt Htxl Himp Htxs Hsmall Hlow.
  assert (Hbl : Events.big_loan default_trap loan = true).
  { unfold Events.big_loan. apply ge_true. rewrite Hamt. simpl.
    unfold Qle. simpl. lia. }
  assert (Hbs : Events.big_swap default_trap swap = true).
  { unfold Events.big_swap. apply ge_true. rewrite Himp. simpl.
    unfold Qle. simpl. lia. }
  split; [|split].
  - apply TrapFacts.should_respond_true_iff. exists loan, swap.
    rewrite Hloans, Hswaps.
    split; [apply in_elt|]. split; [apply in_elt|].
    repeat split; auto.
    unfold Events.related. rewrite Htxl, Htxs. reflexivity.
  - rewrite TrapFacts.get_alert_details_eq. simpl.
    rewrite <- TrapFacts.recent_blocks_slice, Hloans.
    rewrite (filter_only _ _ _ _ Hbl Hsmall). simpl.
    unfold FlashSandwichTrap.loan_entry. now rewrite Htxl.
  - rewrite TrapFacts.get_alert_details_eq. simpl.
    rewrite <- TrapFacts.recent_blocks_slice, Hswaps.
    rewrite (filter_only _ _ _ _ Hbs Hlow). simpl.
    unfold FlashSandwichTrap.swap_entry. now rewrite Htxs.
Qed.

(** The run of [main]: block 1000 below both thresholds, block 1001 with
    the loan and the swap of ["0xTx3"]. *)
Lemma scenario_B_witness :
  FlashSandwichTrap.should_respond default_trap historical = true /\
  Alert.flash_loans (FlashSandwichTrap.get_alert_details default_trap historical)
  = [ LoanEntry.mk "0xAttacker" (500000 # 1) "0xTx3" ] /\
  Alert.high_impact_swaps
    (FlashSandwichTrap.get_alert_details default_trap historical)
  = [ SwapEntry.mk "0xAttacker" (17 # 2) "0xTx3" ].
Proof.
  apply (scenario_B historical
           (FlashLoan.mk "0xAttacker" "USDC" (500000 # 1) "0xTx3")
           (Swap.mk "0xAttacker" "USDC" "ETH" (500000 # 1) (250 # 1) (17 # 2) "0xTx3")
           [FlashLoan.mk "0xUser1" "USDC" (50000 # 1) "0xTx1"] []
           [Swap.mk "0xUser2" "ETH" "USDC" (10 # 1) (20000 # 1) (1 # 2) "0xTx2"] []).
  - reflexivity.
  - reflexivity.
  - reflexivity.
  - reflexivity.
  - reflexivity.
  - reflexivity.
  - repeat constructor.
  - repeat constructor.
Defined.

Section SimpleVersusFull.
Import Events.

Lemma slice_last_map {A B : Type} (f : A -> B) (k : nat) (l : list A) :
  slice_last k (List.map f l) = List.map f (slice_last k l).
Proof. unfold slice_last. now rewrite length_map, skipn_map. Qed.

Lemma existsb_of_map {A B : Type} (f : A -> B) (p : B -> bool) (l : list A) :
  existsb p (List.map f l) = existsb (fun x => p (f x)) l.
Proof. induction l as [|x l IH]; simpl; [reflexivity|now rewrite IH]. Qed.

Lemma existsb_pointwise {A : Type} (p q : A -> bool) (l : list A) :
  (forall x, p x = q x) -> existsb p l = existsb q l.
Proof.
  intros H. induction l as [|x l IH]; simpl; [reflexivity|].
  now rewrite H, IH.
Qed.

Lemma existsb_nested {A B : Type} (f : B -> list A) (p : A -> bool)
      (bs : list B) :
  existsb (fun b => existsb p (f b)) bs
  = existsb p (List.concat (List.map f bs)).
Proof.
  induction bs as [|b bs IH]; simpl; [reflexivity|].
  now rewrite existsb_app, IH.
Qed.

Lemma existsb_filter_true {A : Type} (p q : A -> bool) (l : list A) :
  existsb q (List.filter p l) = true -> existsb p l = true.
Proof.
  rewrite !existsb_exists. intros (x & Hx & _).
  apply List.filter_In in Hx as [Hin Hp]. eauto.
Qed.

(** The simplified detector on the amount/impact shape of a window: is
    there a qualifying loan, and is there a qualifying swap, in the last
    two bundles. *)
Lemma simple_should_respond_existsb (w : list CollectedData.t) :
  SimpleFlashSandwichTrap.should_respond
    SimpleFlashSandwichTrap.init (List.map Design.simple_block w)
  = existsb (big_loan default_trap)
            (all_loans (FlashSandwichTrap.recent_blocks w))
    && existsb (big_swap default_trap)
               (all_swaps (FlashSandwichTrap.recent_blocks w)).
Proof.
  unfold SimpleFlashSandwichTrap.should_respond.
  rewrite length_map. destruct w as [|b w]; [reflexivity|].
  change (length (b :: w) <? 1)%nat with false. cbv iota.
  assert (Hrecent :
            (if (2 <=? length (b :: w))%nat
             then slice_last 2 (List.map Design.simple_block (b :: w))
             else List.map Design.simple_block (b :: w))
            = List.map Design.simple_block
                       (FlashSandwichTrap.recent_blocks (b :: w))).
  { unfold FlashSandwichTrap.recent_blocks.
    destruct (2 <=? length (b :: w))%nat; [apply slice_last_map|reflexivity]. }
  rewrite Hrecent. clear Hrecent.
  generalize (FlashSandwichTrap.recent_blocks (b :: w)). intros bs.
  rewrite !existsb_of_map. unfold all_loans, all_swaps.
  rewrite <- !existsb_nested. f_equal.
  - apply existsb_pointwise. intros d. simpl. now rewrite existsb_of_map.
  - apply existsb_pointwise. intros d. simpl. now rewrite existsb_of_map.
Qed.

End SimpleVersusFull.

(** C8, as the code has it.  The simplified detector makes no relational
    check: on the amount/impact shape of a window it answers whether the
    last two bundles hold some qualifying loan and some qualifying swap.
    The full detector (default configuration) answers true exactly when
    the simplified one does and, in addition, some qualifying loan and
    some qualifying swap share a transaction or an actor.  So a true
    answer of the full detector implies a true answer of the simplified
    one, not the converse. *)
Theorem simple_detector_is_coarser (w : list CollectedData.t) :
  SimpleFlashSandwichTrap.should_respond
    SimpleFlashSandwichTrap.init (List.map Design.simple_block w)
  = existsb (Events.big_loan default_trap)
            (Events.all_loans (FlashSandwichTrap.recent_blocks w))
    && existsb (Events.big_swap default_trap)
               (Events.all_swaps (FlashSandwichTrap.recent_blocks w)) /\
  FlashSandwichTrap.should_respond default_trap w
  = SimpleFlashSandwichTrap.should_respond
      SimpleFlashSandwichTrap.init (List.map Design.simple_block w)
    && existsb
         (fun loan =>
            existsb (Events.related loan)
                    (List.filter (Events.big_swap default_trap)
                       (Events.all_swaps (FlashSandwichTrap.recent_blocks w))))
         (List.filter (Events.big_loan default_trap)
            (Events.all_loans (FlashSandwichTrap.recent_blocks w))).
Proof.
  split; [apply simple_should_respond_existsb|].
  rewrite simple_should_respond_existsb, TrapFacts.should_respond_existsb.
  set (L := Events.all_loans _). set (S := Events.all_swaps _).
  destruct (existsb _ (List.filter (Events.big_loan default_trap) L)) eqn:E;
    [|now rewrite andb_false_r].
  rewrite andb_true_r. symmetry. apply andb_true_intro. split.
  - exact (existsb_filter_true _ _ _ E).
  - apply existsb_exists in E as (loan & _ & Hs).
    exact (existsb_filter_true _ _ _ Hs).
Qed.

(** C8, as stated, fails.  One bundle holds a loan of 500000 and a swap of
    price impact 8.5 by another address in another transaction: the
    simplified detector answers [True] on its amount/impact shape, the
    full detector answers [False]. *)
Lemma simple_and_full_disagree :
  SimpleFlashSandwichTrap.should_respond
    SimpleFlashSandwichTrap.init (List.map Design.simple_block unrelated_pair)
  = true /\
  FlashSandwichTrap.should_respond default_trap unrelated_pair = false.
Proof. split; vm_compute; reflexivity. Qed.

(** ** Calls on the store *)

Section Calls.
Import Store StoreFacts.

Lemma new_each_run {A : Type} (mk : A -> M loc)
      (R : heap -> loc -> A -> Prop) :
  (forall h h' l v, h ⊆ h' -> R h l v -> R h' l v) ->
  (forall v h, exists l h', mk v h = Some (l, h') /\ h ⊆ h' /\ R h' l v) ->
  forall vs h,
  exists ls h',
    new_each mk vs h = Some (ls, h') /\ h ⊆ h' /\ Forall2 (R h') ls vs.
Proof.
  intros Hmono Hmk vs. induction vs as [|v vs IH]; intros h; simpl.
  - exists [], h. repeat split; [reflexivity|constructor].
  - destruct (Hmk v h) as (l & h1 & Hrun & Hsub1 & Hl).
    destruct (IH h1) as (ls & h' & Hrest & Hsub' & Hls).
    exists (l :: ls), h'. unfold bind at 1. rewrite Hrun.
    unfold bind at 1. rewrite Hrest.
    split; [reflexivity|]. split; [now transitivity h1|].
    constructor; [now apply (Hmono h1)|exact Hls].
Qed.

Lemma new_list_run {A : Type} (mk : A -> M loc)
      (read : heap -> loc -> option A) :
  (forall h h' l v, h ⊆ h' -> read h l = Some v -> read h' l = Some v) ->
  (forall v h, exists l h', mk v h = Some (l, h') /\ h ⊆ h' /\
                            read h' l = Some v) ->
  forall vs h,
  exists l h',
    (ls <- new_each mk vs ;; new (OList ls)) h = Some (l, h') /\
    h ⊆ h' /\ read_list read h' l = Some vs.
Proof.
  intros Hmono Hmk vs h.
  destruct (new_each_run mk (fun h l v => read h l = Some v) Hmono Hmk vs h)
    as (ls & h1 & Hrun & Hsub1 & Hls).
  destruct (new_fresh (OList ls) h1) as (l & Hnew & Hl).
  exists l, (<[l := OList ls]> h1). unfold bind at 1. rewrite Hrun.
  pose proof (new_subseteq h1 l (OList ls) Hl) as Hsub2.
  split; [exact Hnew|]. split; [now transitivity h1|].
  apply read_list_Some. exists ls. split; [apply lookup_insert_eq|].
  eapply Forall2_impl; [exact Hls|]. intros x v. now apply Hmono.
Qed.

Lemma new_loan_run (v : FlashLoan.t) (h : heap) :
  exists l h', new (OFlashLoan v) h = Some (l, h') /\ h ⊆ h' /\
               read_loan h' l = Some v.
Proof.
  destruct (new_fresh (OFlashLoan v) h) as (l & Hnew & Hl).
  exists l, (<[l := OFlashLoan v]> h).
  split; [exact Hnew|]. split; [now apply new_subseteq|].
  unfold read_loan. now rewrite lookup_insert_eq.
Qed.

Lemma new_swap_run (v : Swap.t) (h : heap) :
  exists l h', new (OSwap v) h = Some (l, h') /\ h ⊆ h' /\
               read_swap h' l = Some v.
Proof.
  destruct (new_fresh (OSwap v) h) as (l & Hnew & Hl).
  exists l, (<[l := OSwap v]> h).
  split; [exact Hnew|]. split; [now apply new_subseteq|].
  unfold read_swap. now rewrite lookup_insert_eq.
Qed.

Lemma new_block_run (d : CollectedData.t) (h : heap) :
  exists b h', new_block d h = Some (b, h') /\ h ⊆ h' /\
               read_block h' b = Some d.
Proof.
  unfold new_block.
  destruct (new_list_run (fun v => new (OFlashLoan v)) read_loan
              (fun h h' l v Hs => read_loan_mono h h' l v Hs) new_loan_run
              (CollectedData.flash_loans d) h)
    as (fl & h1 & Hfl & Hsub1 & Hloans).
  unfold bind in Hfl.
  destruct (new_each _ (CollectedData.flash_loans d) h) as [[ls hl]|] eqn:El;
    [|discriminate].
  unfold bind at 1. rewrite El. unfold bind at 1. rewrite Hfl.
  destruct (new_list_run (fun v => new (OSwap v)) read_swap
              (fun h h' l v Hs => read_swap_mono h h' l v Hs) new_swap_run
              (CollectedData.swaps d) h1)
    as (sw & h2 & Hsw & Hsub2 & Hswaps).
  unfold bind in Hsw.
  destruct (new_each _ (CollectedData.swaps d) h1) as [[ss hs]|] eqn:Es;
    [|discriminate].
  unfold bind at 1. rewrite Es. unfold bind at 1. rewrite Hsw.
  set (o := OCollectedData _ _ _ _).
  destruct (new_fresh o h2) as (b & Hnew & Hb).
  pose proof (new_subseteq h2 b o Hb) as Hsub3.
  exists b, (<[b := o]> h2). split; [exact Hnew|].
  split; [transitivity h1; [exact Hsub1|now transitivity h2]|].
  apply read_block_Some. exists fl, sw.
  split; [apply lookup_insert_eq|]. split.
  - apply (read_list_mono read_loan h1); auto.
    + intros x v. apply read_loan_mono. now transitivity h2.
    + now transitivity h2.
  - apply (read_list_mono read_swap h2); auto.
    intros x v. now apply read_swap_mono.
Qed.

(** Every window can be held in a store: building it succeeds and the
    window reads back. *)
Lemma new_window_run (w : list CollectedData.t) (h : heap) :
  exists hd h', new_window w h = Some (hd, h') /\ h ⊆ h' /\
                read_window h' hd = Some w.
Proof.
  unfold new_window, read_window.
  apply (new_list_run new_block read_block).
  - intros h1 h2 l v Hs. now apply read_block_mono.
  - apply new_block_run.
Qed.

Lemma initial_reads (w : list CollectedData.t) :
  read_window (fst (initial w)) (snd (initial w)) = Some w.
Proof.
  unfold initial.
  destruct (new_window_run w ∅) as (hd & h & -> & _ & Hw). exact Hw.
Qed.

(** One monitoring step from a store that holds the window [w]. *)
Lemma respond_then_alert_run (self : FlashSandwichTrap.t) (h : heap)
      (hd : loc) (w : list CollectedData.t) :
  read_window h hd = Some w ->
  exists a h',
    respond_then_alert self hd h
    = Some ((FlashSandwichTrap.should_respond self w, a), h') /\
    h ⊆ h' /\ h !! a = None /\
    read_alert h' a = Some (FlashSandwichTrap.get_alert_details self w).
Proof.
  intros Hw.
  destruct (should_respond_run self h hd w Hw) as (h1 & Hrun1 & Hsub1).
  destruct (get_alert_details_run self h1 hd w (read_window_mono _ _ _ _ Hsub1 Hw))
    as (a & h2 & Hrun2 & Hsub2 & Ha & Hread).
  exists a, h2. unfold respond_then_alert.
  unfold bind at 1. rewrite Hrun1. unfold bind at 1. rewrite Hrun2.
  split; [reflexivity|]. split; [now transitivity h1|].
  split; [exact (lookup_weaken_None _ _ _ Ha Hsub1)|exact Hread].
Qed.

End Calls.

(** C4.  On the empty window [should_respond] is false for every
    configuration, and it is a result, not an exception: the call on a
    store whose window is the empty list returns [False] and leaves the
    store as it was. *)
Theorem should_respond_empty_window
        (self : FlashSandwichTrap.t) (h : gmap Store.loc Store.obj)
        (hd : Store.loc) :
  Store.read_window h hd = Some [] ->
  FlashSandwichTrap.should_respond self [] = false /\
  Store.should_respond self hd h = Some (false, h).
Proof.
  intros Hw. split; [reflexivity|].
  apply StoreFacts.read_window_Some in Hw as (bs & Hhd & Hbs).
  inversion Hbs; subst.
  unfold Store.should_respond, Store.len, Store.bind, Store.items.
  rewrite Hhd. reflexivity.
Qed.

Lemma should_respond_empty_window_witness :
  FlashSandwichTrap.should_respond default_trap [] = false /\
  Store.should_respond default_trap (snd (Store.initial []))
                       (fst (Store.initial []))
  = Some (false, fst (Store.initial [])).
Proof.
  apply (should_respond_empty_window
           default_trap (fst (Store.initial [])) (snd (Store.initial []))).
  vm_compute. reflexivity.
Defined.

(** C9.  Purity and idempotence.  From any store that holds the window:
    [should_respond] returns and every object of the store is afterwards
    as it was; so does [get_alert_details]; and running [should_respond]
    then [get_alert_details] twice in a row gives the same boolean both
    times and two alerts of identical content, the window reading back
    unchanged after each run and the first alert unchanged by the second
    run. *)
Theorem respond_then_alert_pure_idempotent
        (self : FlashSandwichTrap.t) (h : gmap Store.loc Store.obj)
        (hd : Store.loc) (w : list CollectedData.t) :
  Store.read_window h hd = Some w ->
  (exists r hs, Store.should_respond self hd h = Some (r, hs) /\ h ⊆ hs) /\
  (exists a ha, Store.get_alert_details self hd h = Some (a, ha) /\ h ⊆ ha) /\
  exists r1 a1 h1 r2 a2 h2,
    Store.respond_then_alert self hd h = Some ((r1, a1), h1) /\
    Store.respond_then_alert self hd h1 = Some ((r2, a2), h2) /\
    h ⊆ h1 /\ h1 ⊆ h2 /\
    Store.read_window h1 hd = Some w /\
    Store.read_window h2 hd = Some w /\
    r1 = r2 /\
    r1 = FlashSandwichTrap.should_respond self w /\
    Store.read_alert h1 a1 = Some (FlashSandwichTrap.get_alert_details self w) /\
    Store.read_alert h2 a1 = Some (FlashSandwichTrap.get_alert_details self w) /\
    Store.read_alert h2 a2 = Some (FlashSandwichTrap.get_alert_details self w).
Proof.
  intros Hw. split; [|split].
  - destruct (StoreFacts.should_respond_run self h hd w Hw) as (hs & Hrun & Hsub).
    eauto.
  - destruct (StoreFacts.get_alert_details_run self h hd w Hw)
      as (a & ha & Hrun & Hsub & _). eauto.
  - destruct (respond_then_alert_run self h hd w Hw)
      as (a1 & h1 & Hrun1 & Hsub1 & _ & Hread1).
    pose proof (StoreFacts.read_window_mono _ _ _ _ Hsub1 Hw) as Hw1.
    destruct (respond_then_alert_run self h1 hd w Hw1)
      as (a2 & h2 & Hrun2 & Hsub2 & _ & Hread2).
    exists (FlashSandwichTrap.should_respond self w), a1, h1,
           (FlashSandwichTrap.should_respond self w), a2, h2.
    split; [exact Hrun1|]. split; [exact Hrun2|].
    split; [exact Hsub1|]. split; [exact Hsub2|].
    split; [exact Hw1|].
    split; [exact (StoreFacts.read_window_mono _ _ _ _ Hsub2 Hw1)|].
    split; [reflexivity|]. split; [reflexivity|].
    split; [exact Hread1|].
    split; [exact (StoreFacts.read_alert_mono _ _ _ _ Hsub2 Hread1)|exact Hread2].
Qed.

(** The run of [main], twice. *)
Lemma respond_then_alert_pure_idempotent_witness :
  exists r a1 h1 a2 h2,
    Store.respond_then_alert default_trap (snd (Store.initial historical))
                             (fst (Store.initial historical))
    = Some ((r, a1), h1) /\
    Store.respond_then_alert default_trap (snd (Store.initial historical)) h1
    = Some ((r, a2), h2) /\
    Store.read_window h2 (snd (Store.initial historical)) = Some historical /\
    Store.read_alert h2 a1 = Store.read_alert h2 a2.
Proof.
  destruct (respond_then_alert_pure_idempotent
              default_trap (fst (Store.initial historical))
              (snd (Store.initial historical)) historical)
    as (_ & _ & r1 & a1 & h1 & r2 & a2 & h2 & H1 & H2 & _ & _ & _ & Hw2
        & Hr & _ & _ & Ha1 & Ha2).
  - vm_compute. reflexivity.
  - exists r1, a1, h1, a2, h2. subst r2.
    split; [exact H1|]. split; [exact H2|]. split; [exact Hw2|].
    now rewrite Ha1, Ha2.
Defined.

(** C10.  [get_alert_details] is total: from any store that holds a
    window, whatever [should_respond] says of it, the call returns an
    alert, whose content is the value-level alert, of attack type
    ["flash_loan_sandwich"] and severity ["HIGH"]; and on the empty window
    that alert has no loan, no swap and [blocks_analyzed = 0]. *)
Theorem get_alert_details_total
        (self : FlashSandwichTrap.t) (h : gmap Store.loc Store.obj)
        (hd : Store.loc) (w : list CollectedData.t) :
  Store.read_window h hd = Some w ->
  (exists a h',
      Store.get_alert_details self hd h = Some (a, h') /\
      Store.read_alert h' a = Some (FlashSandwichTrap.get_alert_details self w)) /\
  Alert.attack_type (FlashSandwichTrap.get_alert_details self w)
  = "flash_loan_sandwich" /\
  Alert.severity (FlashSandwichTrap.get_alert_details self w) = "HIGH" /\
  FlashSandwichTrap.get_alert_details self []
  = {| Alert.attack_type := "flash_loan_sandwich";
       Alert.severity := "HIGH";
       Alert.flash_loans := [];
       Alert.high_impact_swaps := [];
       Alert.blocks_analyzed := 0 |}.
Proof.
  intros Hw. split; [|split; [|split]].
  - destruct (StoreFacts.get_alert_details_run self h hd w Hw)
      as (a & h' & Hrun & _ & _ & Hread). eauto.
  - now rewrite TrapFacts.get_alert_details_eq.
  - now rewrite TrapFacts.get_alert_details_eq.
  - reflexivity.
Qed.

(** The call on the store that holds the empty window. *)
Lemma get_alert_details_total_witness :
  exists a h',
    Store.get_alert_details default_trap (snd (Store.initial []))
                            (fst (Store.initial []))
    = Some (a, h') /\
    Store.read_alert h' a
    = Some {| Alert.attack_type := "flash_loan_sandwich";
              Alert.severity := "HIGH";
              Alert.flash_loans := [];
              Alert.high_impact_swaps := [];
              Alert.blocks_analyzed := 0 |}.
Proof.
  destruct (get_alert_details_total
              default_trap (fst (Store.initial [])) (snd (Store.initial [])) [])
    as ((a & h' & Hrun & Hread) & _).
  - vm_compute. reflexivity.
  - exists a, h'. split; [exact Hrun|exact Hread].
Defined.

(** ** Further properties of the detector *)

Lemma slice_last_app_ge {A : Type} (k : nat) (older w : list A) :
  (k <= length w)%nat -> slice_last k (older ++ w) = slice_last k w.
Proof.
  intros Hk. unfold slice_last. rewrite length_app, skipn_app.
  rewrite skipn_all2 by lia. simpl. f_equal. lia.
Qed.

Lemma related_true (loan : FlashLoan.t) (swap : Swap.t) :
  Events.related loan swap = true <->
  FlashLoan.tx_hash loan = Swap.tx_hash swap \/
  FlashLoan.borrower loan = Swap.trader swap.
Proof.
  unfold Events.related. rewrite orb_true_iff, !String.eqb_eq. reflexivity.
Qed.

Lemma bool_eq_iff (a b : bool) : (a = true <-> b = true) -> a = b.
Proof. destruct a, b; intros [H1 H2]; auto; try (now rewrite H1); now rewrite H2. Qed.

Lemma all_loans_app (bs1 bs2 : list CollectedData.t) :
  Events.all_loans (bs1 ++ bs2) = Events.all_loans bs1 ++ Events.all_loans bs2.
Proof. unfold Events.all_loans. now rewrite List.map_app, concat_app. Qed.

Lemma all_swaps_app (bs1 bs2 : list CollectedData.t) :
  Events.all_swaps (bs1 ++ bs2) = Events.all_swaps bs1 ++ Events.all_swaps bs2.
Proof. unfold Events.all_swaps. now rewrite List.map_app, concat_app. Qed.

Lemma alert_pair_of_respond
      (self : FlashSandwichTrap.t) (w : list CollectedData.t) :
  FlashSandwichTrap.should_respond self w = true ->
  exists le se,
    In le (Alert.flash_loans (FlashSandwichTrap.get_alert_details self w)) /\
    In se (Alert.high_impact_swaps (FlashSandwichTrap.get_alert_details self w)) /\
    (LoanEntry.tx le = SwapEntry.tx se \/
     LoanEntry.borrower le = SwapEntry.trader se).
Proof.
  intros H. apply TrapFacts.should_respond_true_iff in H
    as (loan & swap & Hl & Hs & Hbl & Hbs & Hr).
  rewrite TrapFacts.recent_blocks_slice in Hl, Hs.
  exists (FlashSandwichTrap.loan_entry loan), (FlashSandwichTrap.swap_entry swap).
  rewrite TrapFacts.get_alert_details_eq. simpl.
  split; [apply in_map, List.filter_In; auto|].
  split; [apply in_map, List.filter_In; auto|].
  now apply related_true.
Qed.

(** X1.  A positive decision is always backed by the alert: whenever
    [should_respond] is true, the alert built from the same window lists
    at least one loan and at least one swap, and some listed loan and some
    listed swap have the same [tx] or the loan's borrower is the swap's
    trader.  (So the indexing [alert['flash_loans'][0]] and
    [alert['high_impact_swaps'][0]] of [main] cannot fail.) *)
Theorem respond_implies_alert_pair
        (self : FlashSandwichTrap.t) (w : list CollectedData.t) :
  FlashSandwichTrap.should_respond self w = true ->
  exists le se,
    In le (Alert.flash_loans (FlashSandwichTrap.get_alert_details self w)) /\
    In se (Alert.high_impact_swaps (FlashSandwichTrap.get_alert_details self w)) /\
    (LoanEntry.tx le = SwapEntry.tx se \/
     LoanEntry.borrower le = SwapEntry.trader se).
Proof. exact (alert_pair_of_respond self w). Qed.

Lemma respond_implies_alert_pair_witness :
  exists le se,
    In le (Alert.flash_loans
             (FlashSandwichTrap.get_alert_details default_trap historical)) /\
    In se (Alert.high_impact_swaps
             (FlashSandwichTrap.get_alert_details default_trap historical)) /\
    (LoanEntry.tx le = SwapEntry.tx se \/
     LoanEntry.borrower le = SwapEntry.trader se).
Proof.
  apply (respond_implies_alert_pair default_trap historical).
  vm_compute. reflexivity.
Defined.

(** X2.  No response without both kinds of event: if every loan of the
    last two bundles is below [min_flash_loan_size], or every swap of the
    last two bundles is below [min_price_impact], [should_respond] is
    false, whatever the other events and the older bundles are. *)
Theorem no_qualifying_event_no_response
        (self : FlashSandwichTrap.t) (w : list CollectedData.t) :
  Forall (fun loan =>
            ge (FlashLoan.amount loan)
               (FlashSandwichTrap.min_flash_loan_size self) = false)
         (Events.all_loans (slice_last 2 w)) \/
  Forall (fun swap =>
            ge (Swap.price_impact swap)
               (FlashSandwichTrap.min_price_impact self) = false)
         (Events.all_swaps (slice_last 2 w)) ->
  FlashSandwichTrap.should_respond self w = false.
Proof.
  intros H. rewrite TrapFacts.should_respond_existsb, TrapFacts.recent_blocks_slice.
  destruct H as [H|H].
  - unfold Events.big_loan at 1. now rewrite (filter_none _ _ H).
  - unfold Events.big_swap at 1. rewrite (filter_none _ _ H).
    apply TrapFacts.existsb_no_swaps.
Qed.

(** Block 1000 of [main]: loan too small, impact too low. *)
Lemma no_qualifying_event_no_response_witness :
  FlashSandwichTrap.should_respond default_trap [data1] = false.
Proof.
  apply (no_qualifying_event_no_response default_trap [data1]).
  left. repeat constructor.
Defined.

(** X3.  What the alert lists: an entry is in [flash_loans] exactly when
    it is the entry of a loan of one of the last two bundles with amount
    at least [min_flash_loan_size], and an entry is in
    [high_impact_swaps] exactly when it is the entry of a swap of one of
    the last two bundles with price impact at least [min_price_impact];
    no relation between the loans and the swaps is asked for. *)
Theorem alert_lists_membership
        (self : FlashSandwichTrap.t) (w : list CollectedData.t) :
  (forall e,
      In e (Alert.flash_loans (FlashSandwichTrap.get_alert_details self w)) <->
      exists b loan,
        In b (slice_last 2 w) /\ In loan (CollectedData.flash_loans b) /\
        ge (FlashLoan.amount loan) (FlashSandwichTrap.min_flash_loan_size self)
        = true /\
        e = FlashSandwichTrap.loan_entry loan) /\
  (forall e,
      In e (Alert.high_impact_swaps (FlashSandwichTrap.get_alert_details self w)) <->
      exists b swap,
        In b (slice_last 2 w) /\ In swap (CollectedData.swaps b) /\
        ge (Swap.price_impact swap) (FlashSandwichTrap.min_price_impact self)
        = true /\
        e = FlashSandwichTrap.swap_entry swap).
Proof.
  rewrite TrapFacts.get_alert_details_eq. simpl. split; intros e.
  - rewrite in_map_iff. split.
    + intros (loan & <- & Hin). apply List.filter_In in Hin as [Hin Hbig].
      apply in_all_loans in Hin as (b & Hb & Hin). exists b, loan. auto.
    + intros (b & loan & Hb & Hin & Hbig & ->). exists loan.
      split; [reflexivity|]. apply List.filter_In.
      split; [apply in_all_loans; eauto|exact Hbig].
  - rewrite in_map_iff. split.
    + intros (swap & <- & Hin). apply List.filter_In in Hin as [Hin Hbig].
      apply in_all_swaps in Hin as (b & Hb & Hin). exists b, swap. auto.
    + intros (b & swap & Hb & Hin & Hbig & ->). exists swap.
      split; [reflexivity|]. apply List.filter_In.
      split; [apply in_all_swaps; eauto|exact Hbig].
Qed.

(** X4.  Older history is ignored: in front of a window of at least two
    bundles, any number of older bundles may be added without changing
    the decision or the two lists of the alert; only [blocks_analyzed]
    grows, by the number of bundles added. *)
Theorem older_history_ignored
        (self : FlashSandwichTrap.t) (older w : list CollectedData.t) :
  (2 <= length w)%nat ->
  FlashSandwichTrap.should_respond self (older ++ w)
  = FlashSandwichTrap.should_respond self w /\
  Alert.flash_loans (FlashSandwichTrap.get_alert_details self (older ++ w))
  = Alert.flash_loans (FlashSandwichTrap.get_alert_details self w) /\
  Alert.high_impact_swaps (FlashSandwichTrap.get_alert_details self (older ++ w))
  = Alert.high_impact_swaps (FlashSandwichTrap.get_alert_details self w) /\
  Alert.blocks_analyzed (FlashSandwichTrap.get_alert_details self (older ++ w))
  = Alert.blocks_analyzed (FlashSandwichTrap.get_alert_details self w)
    + Z.of_nat (length older).
Proof.
  intros Hw.
  rewrite !TrapFacts.should_respond_existsb, !TrapFacts.recent_blocks_slice.
  rewrite !TrapFacts.get_alert_details_eq. simpl.
  rewrite (slice_last_app_ge 2 older w Hw), length_app.
  repeat split; lia.
Qed.

Lemma older_history_ignored_witness :
  FlashSandwichTrap.should_respond default_trap ([data2; data2] ++ [data1; data1])
  = FlashSandwichTrap.should_respond default_trap [data1; data1].
Proof.
  apply (older_history_ignored default_trap [data2; data2] [data1; data1]).
  simpl. lia.
Defined.

(** X5.  The order of the two inspected bundles does not matter: the
    decision is the same when the last two bundles are exchanged, so a
    swap in the block before the loan counts as much as one in the block
    after it. *)
Theorem last_two_bundles_commute
        (self : FlashSandwichTrap.t) (older : list CollectedData.t)
        (b1 b2 : CollectedData.t) :
  FlashSandwichTrap.should_respond self (older ++ [b1; b2])
  = FlashSandwichTrap.should_respond self (older ++ [b2; b1]).
Proof.
  assert (Hswap : forall x y,
             FlashSandwichTrap.should_respond self (older ++ [x; y]) = true ->
             FlashSandwichTrap.should_respond self (older ++ [y; x]) = true).
  { intros x y. rewrite !TrapFacts.should_respond_true_iff.
    rewrite !TrapFacts.recent_blocks_slice.
    rewrite !slice_last_app_ge by (simpl; lia).
    rewrite !slice_last_short by (simpl; lia).
    intros (loan & swap & Hl & Hs & Hrest). exists loan, swap.
    change [x; y] with ([x] ++ [y]) in Hl, Hs.
    change [y; x] with ([y] ++ [x]).
    rewrite all_loans_app, in_app_iff in Hl.
    rewrite all_swaps_app, in_app_iff in Hs.
    rewrite all_loans_app, all_swaps_app, !in_app_iff. tauto. }
  apply bool_eq_iff. split; apply Hswap.
Qed.

(** X6.  [collect] is a stub returning a bundle without events: on a
    window made of bundles returned by [collect], for any block numbers,
    [should_respond] is false and the alert lists nothing. *)
Theorem collect_never_responds
        (self collector : FlashSandwichTrap.t) (block_numbers : list Z) :
  FlashSandwichTrap.should_respond
    self (List.map (FlashSandwichTrap.collect collector) block_numbers) = false /\
  Alert.flash_loans
    (FlashSandwichTrap.get_alert_details
       self (List.map (FlashSandwichTrap.collect collector) block_numbers)) = [] /\
  Alert.high_impact_swaps
    (FlashSandwichTrap.get_alert_details
       self (List.map (FlashSandwichTrap.collect collector) block_numbers)) = [].
Proof.
  assert (Hl : forall ns,
             Events.all_loans (List.map (FlashSandwichTrap.collect collector) ns) = []).
  { induction ns as [|n ns IH]; [reflexivity|exact IH]. }
  assert (Hs : forall ns,
             Events.all_swaps (List.map (FlashSandwichTrap.collect collector) ns) = []).
  { induction ns as [|n ns IH]; [reflexivity|exact IH]. }
  rewrite TrapFacts.should_respond_existsb, TrapFacts.recent_blocks_slice.
  rewrite TrapFacts.get_alert_details_eq. simpl.
  rewrite slice_last_map, Hl, Hs. auto.
Qed.

(** X8.  The thresholds are inclusive: a loan whose amount equals
    [min_flash_loan_size] and a swap whose price impact equals
    [min_price_impact], in bundles among the last two and with the same
    [tx_hash] or with borrower equal to trader, make [should_respond]
    true. *)
Theorem thresholds_inclusive
        (self : FlashSandwichTrap.t) (w : list CollectedData.t)
        (b1 b2 : CollectedData.t) (loan : FlashLoan.t) (swap : Swap.t) :
  In b1 (slice_last 2 w) -> In loan (CollectedData.flash_loans b1) ->
  In b2 (slice_last 2 w) -> In swap (CollectedData.swaps b2) ->
  (FlashLoan.amount loan == FlashSandwichTrap.min_flash_loan_size self)%Q ->
  (Swap.price_impact swap == FlashSandwichTrap.min_price_impact self)%Q ->
  FlashLoan.tx_hash loan = Swap.tx_hash swap \/
  FlashLoan.borrower loan = Swap.trader swap ->
  FlashSandwichTrap.should_respond self w = true.
Proof.
  intros Hb1 Hl Hb2 Hs Hamt Himp Hrel.
  apply TrapFacts.should_respond_true_iff. exists loan, swap.
  rewrite TrapFacts.recent_blocks_slice.
  split; [apply in_all_loans; eauto|].
  split; [apply in_all_swaps; eauto|].
  split; [unfold Events.big_loan; apply ge_true; rewrite Hamt; apply Qle_refl|].
  split; [unfold Events.big_swap; apply ge_true; rewrite Himp; apply Qle_refl|].
  now apply related_true.
Qed.

(** A trap whose thresholds are the very values of the attack of [main]. *)
Lemma thresholds_inclusive_witness :
  FlashSandwichTrap.should_respond
    (FlashSandwichTrap.mk (17 # 2) (500000 # 1) 1) [data1; tx3_block] = true.
Proof.
  apply (thresholds_inclusive
           (FlashSandwichTrap.mk (17 # 2) (500000 # 1) 1) [data1; tx3_block]
           tx3_block tx3_block tx3_loan tx3_swap).
  - simpl. auto.
  - simpl. auto.
  - simpl. auto.
  - simpl. auto.
  - reflexivity.
  - reflexivity.
  - left. reflexivity.
Defined.

(** ** Properties of the simplified detector *)

Lemma simple_recent (blocks : list SimpleFlashSandwichTrap.Block) :
  (if (2 <=? length blocks)%nat then slice_last 2 blocks else blocks)
  = slice_last 2 blocks.
Proof.
  destruct (Nat.leb_spec 2 (length blocks)); [reflexivity|].
  symmetry. apply slice_last_short. lia.
Qed.

Lemma simple_should_respond_eq
      (self : SimpleFlashSandwichTrap.t)
      (blocks : list SimpleFlashSandwichTrap.Block) :
  SimpleFlashSandwichTrap.should_respond self blocks
  = existsb (fun loan => ge loan (SimpleFlashSandwichTrap.flash_loan_threshold self))
            (List.concat (List.map SimpleFlashSandwichTrap.flash_loans
                                   (slice_last 2 blocks)))
    && existsb (fun impact =>
                  ge impact (SimpleFlashSandwichTrap.price_impact_threshold self))
               (List.concat (List.map SimpleFlashSandwichTrap.price_impacts
                                      (slice_last 2 blocks))).
Proof.
  unfold SimpleFlashSandwichTrap.should_respond.
  destruct blocks as [|b blocks]; [reflexivity|].
  change (length (b :: blocks) <? 1)%nat with false. cbv iota.
  rewrite simple_recent. now rewrite <- !existsb_nested.
Qed.

(** X9.  The simplified detector answers true exactly when, among the
    last two blocks, some loan amount is at least the loan threshold and
    some price impact is at least the impact threshold; the two may sit in
    different blocks, and nothing relates them. *)
Theorem simple_should_respond_iff
        (self : SimpleFlashSandwichTrap.t)
        (blocks : list SimpleFlashSandwichTrap.Block) :
  SimpleFlashSandwichTrap.should_respond self blocks = true <->
  exists b1 loan b2 impact,
    In b1 (slice_last 2 blocks) /\
    In loan (SimpleFlashSandwichTrap.flash_loans b1) /\
    (SimpleFlashSandwichTrap.flash_loan_threshold self <= loan)%Q /\
    In b2 (slice_last 2 blocks) /\
    In impact (SimpleFlashSandwichTrap.price_impacts b2) /\
    (SimpleFlashSandwichTrap.price_impact_threshold self <= impact)%Q.
Proof.
  rewrite simple_should_respond_eq, andb_true_iff, !existsb_exists. split.
  - intros [(loan & Hl & Hbl) (impact & Hi & Hbi)].
    apply in_concat in Hl as (l & Hl & Hin). apply in_map_iff in Hl as (b1 & <- & Hb1).
    apply in_concat in Hi as (l & Hi & Hin'). apply in_map_iff in Hi as (b2 & <- & Hb2).
    apply ge_true in Hbl, Hbi. exists b1, loan, b2, impact. auto 10.
  - intros (b1 & loan & b2 & impact & Hb1 & Hl & Hbl & Hb2 & Hi & Hbi). split.
    + exists loan. split; [|now apply ge_true].
      apply in_concat. exists (SimpleFlashSandwichTrap.flash_loans b1).
      split; [now apply in_map|exact Hl].
    + exists impact. split; [|now apply ge_true].
      apply in_concat. exists (SimpleFlashSandwichTrap.price_impacts b2).
      split; [now apply in_map|exact Hi].
Qed.

(** The two assertions of [test_quick.py]. *)
Example test_quick_passes :
  SimpleFlashSandwichTrap.should_respond SimpleFlashSandwichTrap.init [test_block1]
  = false /\
  SimpleFlashSandwichTrap.should_respond
    SimpleFlashSandwichTrap.init [test_block1; test_block2] = true.
Proof. split; vm_compute; reflexivity. Qed.

(** X10.  The simplified detector ignores older history: in front of a
    list of at least two blocks, more blocks may be added without changing
    its answer. *)
Theorem simple_older_history_ignored
        (self : SimpleFlashSandwichTrap.t)
        (older blocks : list SimpleFlashSandwichTrap.Block) :
  (2 <= length blocks)%nat ->
  SimpleFlashSandwichTrap.should_respond self (older ++ blocks)
  = SimpleFlashSandwichTrap.should_respond self blocks.
Proof.
  intros H. rewrite !simple_should_respond_eq.
  now rewrite (slice_last_app_ge 2 older blocks H).
Qed.

Lemma simple_older_history_ignored_witness :
  SimpleFlashSandwichTrap.should_respond
    SimpleFlashSandwichTrap.init ([test_block2] ++ [test_block1; test_block1])
  = SimpleFlashSandwichTrap.should_respond
      SimpleFlashSandwichTrap.init [test_block1; test_block1].
Proof.
  apply (simple_older_history_ignored
           SimpleFlashSandwichTrap.init [test_block2] [test_block1; test_block1]).
  simpl. lia.
Defined.

(** X7.  The simplified [collect] is a stub too: on blocks returned by
    [collect], for any block numbers, the simplified detector answers
    false. *)
Theorem simple_collect_never_responds
        (self collector : SimpleFlashSandwichTrap.t) (block_numbers : list Z) :
  SimpleFlashSandwichTrap.should_respond
    self (List.map (SimpleFlashSandwichTrap.collect collector) block_numbers)
  = false.
Proof.
  rewrite simple_should_respond_eq, slice_last_map.
  generalize (slice_last 2 block_numbers). intros ns.
  assert (H : List.concat
                (List.map SimpleFlashSandwichTrap.flash_loans
                   (List.map (SimpleFlashSandwichTrap.collect collector) ns)) = []).
  { induction ns as [|n ns IH]; [reflexivity|exact IH]. }
  now rewrite H.
Qed.

(** ** The alert is made of new objects *)

(** X11.  From any store that holds the window, [get_alert_details]
    returns a dictionary that was not in the store before, whose
    [flash_loans] and [high_impact_swaps] are two distinct list objects
    that were not in the store before either: the alert shares no list
    with the window, so the caller may change the alert's lists without
    touching the history. *)
Theorem get_alert_details_allocates
        (self : FlashSandwichTrap.t) (h : gmap Store.loc Store.obj)
        (hd : Store.loc) (w : list CollectedData.t) :
  Store.read_window h hd = Some w ->
  exists a h' fl sw,
    Store.get_alert_details self hd h = Some (a, h') /\
    h' !! a = Some (Store.OAlert "flash_loan_sandwich" "HIGH" fl sw
                                 (Z.of_nat (length w))) /\
    h !! a = None /\ h !! fl = None /\ h !! sw = None /\
    fl <> sw /\ a <> fl /\ a <> sw /\
    (exists ls, h' !! fl = Some (Store.OList ls)) /\
    (exists ss, h' !! sw = Some (Store.OList ss)).
Proof.
  intros Hw. apply StoreFacts.read_window_Some in Hw as (bs & Hhd & Hbs).
  unfold Store.get_alert_details.
  destruct (StoreFacts.new_fresh (Store.OList (slice_last 2 bs)) h)
    as (rb & Hnew & Hrb).
  unfold Store.bind at 1. unfold Store.slice, Store.bind at 1.
  rewrite (StoreFacts.items_run h hd bs Hhd), Hnew.
  set (hA := <[rb := Store.OList (slice_last 2 bs)]> h).
  assert (HsubA : h ⊆ hA) by now apply StoreFacts.new_subseteq.
  assert (HrbA : hA !! rb = Some (Store.OList (slice_last 2 bs)))
    by apply lookup_insert_eq.
  destruct (StoreFacts.new_fresh (Store.OList []) hA) as (fl & Hnewfl & Hfl).
  unfold Store.bind at 1. rewrite Hnewfl.
  set (hB := <[fl := Store.OList []]> hA).
  assert (HsubB : hA ⊆ hB) by now apply StoreFacts.new_subseteq.
  destruct (StoreFacts.new_fresh (Store.OList []) hB) as (sw & Hnewsw & Hsw).
  unfold Store.bind at 1. rewrite Hnewsw.
  set (hC := <[sw := Store.OList []]> hB).
  assert (HsubC : hB ⊆ hC) by now apply StoreFacts.new_subseteq.
  assert (HsubAC : hA ⊆ hC) by now transitivity hB.
  assert (Hne : fl <> sw).
  { intros ->. unfold hB in Hsw. now rewrite lookup_insert_eq in Hsw. }
  assert (HswA : hA !! sw = None) by exact (lookup_weaken_None _ _ _ Hsw HsubB).
  unfold Store.bind at 1.
  rewrite (StoreFacts.items_run hC rb _ (lookup_weaken _ _ _ _ HrbA HsubAC)).
  assert (Hst : Store.alert_state hA fl sw hC [] []).
  { split; [exact HsubAC|]. split.
    - exists []. split; [|constructor].
      apply (lookup_weaken hB); [apply lookup_insert_eq|exact HsubC].
    - exists []. split; [apply lookup_insert_eq|constructor]. }
  destruct (StoreFacts.alert_loop self hA fl sw Hfl HswA Hne
              (slice_last 2 bs) (slice_last 2 w)
              (StoreFacts.blocks_at_slice hA 2 bs w
                 (StoreFacts.blocks_at_mono h hA _ _ HsubA Hbs))
              hC [] [] Hst)
    as (hD & Hloop & HsubD & (accL & HaccL & _) & (accS & HaccS & _)).
  unfold Store.bind at 1. rewrite Hloop.
  assert (HsubhD : h ⊆ hD) by now transitivity hA.
  unfold Store.bind at 1. unfold Store.len, Store.bind at 1.
  rewrite (StoreFacts.items_run hD hd bs (lookup_weaken _ _ _ _ Hhd HsubhD)).
  unfold Store.ret. rewrite (Forall2_length _ _ _ Hbs).
  set (o := Store.OAlert _ _ _ _ _).
  destruct (StoreFacts.new_fresh o hD) as (a & Hnewa & Ha).
  pose proof (StoreFacts.new_subseteq hD a o Ha) as HsubF.
  exists a, (<[a := o]> hD), fl, sw.
  split; [exact Hnewa|]. split; [apply lookup_insert_eq|].
  split; [exact (lookup_weaken_None _ _ _ Ha HsubhD)|].
  split; [exact (lookup_weaken_None _ _ _ Hfl HsubA)|].
  split; [exact (lookup_weaken_None _ _ _ HswA HsubA)|].
  split; [exact Hne|].
  split; [intros ->; rewrite Ha in HaccL; discriminate|].
  split; [intros ->; rewrite Ha in HaccS; discriminate|].
  split; [exists accL; exact (lookup_weaken _ _ _ _ HaccL HsubF)|].
  exists accS. exact (lookup_weaken _ _ _ _ HaccS HsubF).
Qed.

Lemma get_alert_details_allocates_witness :
  exists a h' fl sw,
    Store.get_alert_details default_trap (snd (Store.initial historical))
                            (fst (Store.initial historical)) = Some (a, h') /\
    h' !! a = Some (Store.OAlert "flash_loan_sandwich" "HIGH" fl sw 2) /\
    fst (Store.initial historical) !! fl = None /\
    fst (Store.initial historical) !! sw = None /\
    fl <> sw.
Proof.
  destruct (get_alert_details_allocates
              default_trap (fst (Store.initial historical))
              (snd (Store.initial historical)) historical)
    as (a & h' & fl & sw & Hrun & Ha & _ & Hfl & Hsw & Hne & _).
  - vm_compute. reflexivity.
  - exists a, h', fl, sw. auto.
Defined.

(** ** The monitoring loop of [run.py] *)

Section RunFacts.
Variables (trap : FlashSandwichTrap.t) (connector : Run.Connector).

Lemma history_cons (b : Z) (rest : list Z) (k : nat) :
  Run.history connector (b :: rest) (S k)
  = Run.collected connector b :: Run.history connector rest k.
Proof. reflexivity. Qed.

Lemma loop_quiet (blocks : list Z) :
  forall hd,
    (forall k, (k < length blocks)%nat ->
               FlashSandwichTrap.should_respond
                 trap (hd ++ Run.history connector blocks (S k)) = false) ->
    Run.loop trap connector blocks hd = List.map Run.NoIncident blocks.
Proof.
  induction blocks as [|b rest IH]; intros hd H; simpl; [reflexivity|].
  pose proof (H 0%nat ltac:(simpl; lia)) as H0.
  rewrite history_cons in H0. change (Run.history connector rest 0) with
    (@nil CollectedData.t) in H0.
  rewrite H0. f_equal. apply IH. intros k Hk.
  specialize (H (S k) ltac:(simpl; lia)).
  rewrite history_cons in H. now rewrite <- app_assoc.
Qed.

Lemma loop_incident (blocks : list Z) :
  forall hd k b,
    nth_error blocks k = Some b ->
    (forall j, (j < k)%nat ->
               FlashSandwichTrap.should_respond
                 trap (hd ++ Run.history connector blocks (S j)) = false) ->
    FlashSandwichTrap.should_respond
      trap (hd ++ Run.history connector blocks (S k)) = true ->
    Run.loop trap connector blocks hd
    = List.map Run.NoIncident (take k blocks)
      ++ [Run.Attack b;
          Run.Details (FlashSandwichTrap.get_alert_details
                         trap (hd ++ Run.history connector blocks (S k)))].
Proof.
  induction blocks as [|b0 rest IH]; intros hd k b Hb Hquiet Hhit.
  - destruct k; discriminate.
  - destruct k as [|k].
    + injection Hb as ->. simpl.
      rewrite history_cons in Hhit |- *.
      change (Run.history connector rest 0) with (@nil CollectedData.t) in *.
      now rewrite Hhit.
    + simpl in Hb. simpl.
      pose proof (Hquiet 0%nat ltac:(lia)) as H0.
      rewrite history_cons in H0.
      change (Run.history connector rest 0) with (@nil CollectedData.t) in H0.
      rewrite H0. f_equal.
      rewrite history_cons in Hhit |- *.
      replace (hd ++ Run.collected connector b0 :: Run.history connector rest (S k))
        with ((hd ++ [Run.collected connector b0])
                ++ Run.history connector rest (S k)) in *
        by now rewrite <- app_assoc.
      apply IH; [exact Hb| |exact Hhit].
      intros j Hj. specialize (Hquiet (S j) ltac:(lia)).
      rewrite history_cons in Hquiet. now rewrite <- app_assoc.
Qed.

(** An attack line comes from a block at which the decision was positive. *)
Lemma loop_attack_inv (blocks : list Z) :
  forall hd n,
    In (Run.Attack n) (Run.loop trap connector blocks hd) ->
    exists pre post,
      blocks = pre ++ n :: post /\
      FlashSandwichTrap.should_respond
        trap ((hd ++ List.map (Run.collected connector) pre)
                ++ [Run.collected connector n]) = true.
Proof.
  induction blocks as [|b rest IH]; intros hd n Hin; simpl in Hin; [contradiction|].
  destruct (FlashSandwichTrap.should_respond _ _) eqn:E.
  - destruct Hin as [Heq|[Heq|[]]]; [|discriminate].
    injection Heq as ->. exists [], rest. simpl. now rewrite app_nil_r.
  - destruct Hin as [Heq|Hin]; [discriminate|].
    destruct (IH _ _ Hin) as (pre & post & -> & Hhit).
    exists (b :: pre), post. split; [reflexivity|].
    simpl. rewrite <- app_assoc in Hhit. simpl in Hhit.
    now rewrite <- !app_assoc in *.
Qed.

Lemma loop_details_inv (blocks : list Z) :
  forall hd a,
    In (Run.Details a) (Run.loop trap connector blocks hd) ->
    exists pre n post,
      blocks = pre ++ n :: post /\
      FlashSandwichTrap.should_respond
        trap ((hd ++ List.map (Run.collected connector) pre)
                ++ [Run.collected connector n]) = true /\
      a = FlashSandwichTrap.get_alert_details
            trap ((hd ++ List.map (Run.collected connector) pre)
                    ++ [Run.collected connector n]).
Proof.
  induction blocks as [|b rest IH]; intros hd a Hin; simpl in Hin; [contradiction|].
  destruct (FlashSandwichTrap.should_respond _ _) eqn:E.
  - destruct Hin as [Heq|[Heq|[]]]; [discriminate|].
    injection Heq as <-. exists [], b, rest. simpl. rewrite app_nil_r. auto.
  - destruct Hin as [Heq|Hin]; [discriminate|].
    destruct (IH _ _ Hin) as (pre & n & post & -> & Hhit & ->).
    exists (b :: pre), n, post. simpl. rewrite <- !app_assoc in *. simpl in *.
    auto.
Qed.

Lemma loop_blocks (blocks : list Z) :
  forall hd n,
    In (Run.NoIncident n) (Run.loop trap connector blocks hd) \/
    In (Run.Attack n) (Run.loop trap connector blocks hd) ->
    In n blocks.
Proof.
  induction blocks as [|b rest IH]; intros hd n Hin; simpl in Hin; [tauto|].
  destruct (FlashSandwichTrap.should_respond _ _).
  - destruct Hin as [[Heq|[Heq|[]]]|[Heq|[Heq|[]]]]; try discriminate.
    injection Heq as ->. now left.
  - destruct Hin as [[Heq|Hin]|[Heq|Hin]]; try discriminate.
    + injection Heq as ->. now left.
    + right. apply (IH (hd ++ [Run.collected connector b]) n). now left.
    + right. apply (IH (hd ++ [Run.collected connector b]) n). now right.
Qed.

End RunFacts.

Lemma range_length (a b : Z) : length (Run.range a b) = Z.to_nat (b - a).
Proof. unfold Run.range. now rewrite length_map, length_seq. Qed.

Lemma range_in (a b n : Z) : In n (Run.range a b) -> a <= n < b.
Proof.
  unfold Run.range. rewrite in_map_iff. intros (i & <- & Hi).
  apply in_seq in Hi. lia.
Qed.

Lemma range_nth (a b : Z) (k : nat) :
  (k < Z.to_nat (b - a))%nat ->
  nth_error (Run.range a b) k = Some (a + Z.of_nat k).
Proof.
  intros Hk. unfold Run.range.
  rewrite nth_error_map, nth_error_seq.
  destruct (Nat.ltb_spec k (Z.to_nat (b - a))); [reflexivity|lia].
Qed.

Lemma seq_consecutive (a : Z) (len : nat) :
  forall s l1 m n l2,
    List.map (fun i => a + Z.of_nat i) (seq s len) = l1 ++ m :: n :: l2 ->
    n = m + 1.
Proof.
  induction len as [|len IH]; intros s l1 m n l2 H; simpl in H.
  - destruct l1; discriminate.
  - destruct l1 as [|x l1].
    + simpl in H. injection H as Hm Hrest. destruct len; [discriminate|].
      simpl in Hrest. injection Hrest as Hn _. lia.
    + simpl in H. injection H as _ Hrest. exact (IH _ _ _ _ _ Hrest).
Qed.

Lemma slice_last_two_snoc {A : Type} (xs : list A) (c b : A) :
  In b (slice_last 2 (xs ++ [c])) ->
  b = c \/ exists xs', xs = xs' ++ [b].
Proof.
  destruct xs as [|x xs _] using rev_ind.
  - simpl. intros [<-|[]]. now left.
  - rewrite <- app_assoc. simpl.
    rewrite (slice_last_app_ge 2 xs [x; c]) by (simpl; lia).
    rewrite slice_last_short by (simpl; lia).
    intros [<-|[<-|[]]]; [right; eauto|now left].
Qed.

Lemma run_in_loop (config : FlashSandwichTrap.Config)
      (connector : Run.Connector) (l : Run.line) :
  In l (fst (Run.run config connector)) ->
  (exists n, l = Run.NoIncident n) \/ (exists n, l = Run.Attack n) \/
  (exists a, l = Run.Details a) ->
  In l (Run.loop (FlashSandwichTrap.init config) connector
                 (Run.range (Run.block_number connector - 10)
                            (Run.block_number connector)) []).
Proof.
  unfold Run.run. intros Hin Hkind.
  destruct (FlashSandwichTrap.cfg_min_price_impact config) as [pi|];
    [destruct (FlashSandwichTrap.cfg_min_flash_loan_size config) as [fl|]|];
    simpl in Hin.
  - destruct Hin as [<-|[<-|[<-|[<-|Hin]]]];
      try (destruct Hkind as [[? ?]|[[? ?]|[? ?]]]; discriminate).
    apply in_app_iff in Hin as [Hin|[<-|[]]]; [exact Hin|].
    destruct Hkind as [[? ?]|[[? ?]|[? ?]]]; discriminate.
  - destruct Hin as [<-|[<-|[]]];
      destruct Hkind as [[? ?]|[[? ?]|[? ?]]]; discriminate.
  - destruct Hin as [<-|[]];
      destruct Hkind as [[? ?]|[[? ?]|[? ?]]]; discriminate.
Qed.

(** X12.  The script needs both threshold keys although the trap does
    not: it ends with a [KeyError] exactly when [min_price_impact] or
    [min_flash_loan_size] is absent from the configuration (the trap built
    from the same configuration takes the defaults), and then no block is
    examined; [max_blocks_between] may be absent. *)
Theorem run_requires_threshold_keys
        (config : FlashSandwichTrap.Config) (connector : Run.Connector) :
  (snd (Run.run config connector) <> None <->
   FlashSandwichTrap.cfg_min_price_impact config = None \/
   FlashSandwichTrap.cfg_min_flash_loan_size config = None) /\
  (snd (Run.run config connector) <> None ->
   forall n, ~ In (Run.NoIncident n) (fst (Run.run config connector)) /\
             ~ In (Run.Attack n) (fst (Run.run config connector))).
Proof.
  unfold Run.run.
  destruct (FlashSandwichTrap.cfg_min_price_impact config) as [pi|];
    [destruct (FlashSandwichTrap.cfg_min_flash_loan_size config) as [fl|]|];
    simpl; split.
  - split; [intros H; now destruct H|intros [H|H]; discriminate].
  - intros H. now destruct H.
  - split; [auto|discriminate].
  - intros _ n. split; intros [H|[H|[]]]; discriminate.
  - split; [auto|discriminate].
  - intros _ n. split; intros [H|[]]; discriminate.
Qed.

Lemma run_requires_threshold_keys_witness :
  ~ In (Run.NoIncident 1001)
       (fst (Run.run (FlashSandwichTrap.mkConfig (Some (5 # 1)%Q) None (Some 1))
                     demo_connector)) /\
  ~ In (Run.Attack 1001)
       (fst (Run.run (FlashSandwichTrap.mkConfig (Some (5 # 1)%Q) None (Some 1))
                     demo_connector)).
Proof.
  apply (run_requires_threshold_keys
           (FlashSandwichTrap.mkConfig (Some (5 # 1)%Q) None (Some 1))
           demo_connector).
  simpl. discriminate.
Defined.

Lemma take_range_lines (a b : Z) (k : nat) :
  (k <= Z.to_nat (b - a))%nat ->
  List.map Run.NoIncident (take k (Run.range a b))
  = List.map (fun i => Run.NoIncident (a + Z.of_nat i)) (seq 0 k).
Proof.
  intros Hk. unfold Run.range.
  rewrite firstn_map, take_seq, List.map_map.
  now replace (Nat.min k (Z.to_nat (b - a))) with k by lia.
Qed.

(** X13.  A quiet run: with both threshold keys present, if the decision
    is negative on the history after each of the ten blocks, the script
    prints its header, one "no incidents" line for each of the ten blocks
    [current - 10 .. current - 1] in order, and the closing line, and
    raises nothing. *)
Theorem run_quiet
        (config : FlashSandwichTrap.Config) (connector : Run.Connector)
        (price_impact flash_loan : Q) :
  FlashSandwichTrap.cfg_min_price_impact config = Some price_impact ->
  FlashSandwichTrap.cfg_min_flash_loan_size config = Some flash_loan ->
  (forall k, (k < 10)%nat ->
             FlashSandwichTrap.should_respond
               (FlashSandwichTrap.init config)
               (Run.history connector
                  (Run.range (Run.block_number connector - 10)
                             (Run.block_number connector)) (S k)) = false) ->
  Run.run config connector
  = ([Run.Running; Run.MinPriceImpact price_impact;
      Run.MinFlashLoan flash_loan; Run.Blank]
       ++ List.map (fun i => Run.NoIncident
                               (Run.block_number connector - 10 + Z.of_nat i))
                   (seq 0 10)
       ++ [Run.Complete],
     None).
Proof.
  intros Hpi Hfl Hquiet. unfold Run.run. rewrite Hpi, Hfl.
  rewrite (loop_quiet _ connector); [|].
  - unfold Run.range.
    replace (Z.to_nat (Run.block_number connector
                       - (Run.block_number connector - 10))) with 10%nat by lia.
    now rewrite List.map_map.
  - intros k Hk. rewrite range_length in Hk. apply Hquiet. lia.
Qed.

Lemma run_quiet_witness :
  snd (Run.run main_config quiet_connector) = None /\
  length (fst (Run.run main_config quiet_connector)) = 15%nat.
Proof.
  rewrite (run_quiet main_config quiet_connector (5 # 1) (100000 # 1)).
  - split; reflexivity.
  - reflexivity.
  - reflexivity.
  - intros k Hk.
    do 10 (destruct k as [|k]; [vm_compute; reflexivity|]). lia.
Defined.

(** X14.  The script stops at the first incident: with both threshold
    keys present, if the decision is negative after each of the first [k]
    blocks and positive after block [k + 1] (of the ten), the script prints
    its header, [k] "no incidents" lines, one attack line for block
    [current - 10 + k] with the alert built from the [k + 1] bundles
    collected so far, and the closing line; later blocks are never
    collected, and the alert's [blocks_analyzed] is [k + 1]. *)
Theorem run_stops_at_first_incident
        (config : FlashSandwichTrap.Config) (connector : Run.Connector)
        (price_impact flash_loan : Q) (k : nat) :
  FlashSandwichTrap.cfg_min_price_impact config = Some price_impact ->
  FlashSandwichTrap.cfg_min_flash_loan_size config = Some flash_loan ->
  (k < 10)%nat ->
  (forall j, (j < k)%nat ->
             FlashSandwichTrap.should_respond
               (FlashSandwichTrap.init config)
               (Run.history connector
                  (Run.range (Run.block_number connector - 10)
                             (Run.block_number connector)) (S j)) = false) ->
  FlashSandwichTrap.should_respond
    (FlashSandwichTrap.init config)
    (Run.history connector
       (Run.range (Run.block_number connector - 10)
                  (Run.block_number connector)) (S k)) = true ->
  Run.run config connector
  = ([Run.Running; Run.MinPriceImpact price_impact;
      Run.MinFlashLoan flash_loan; Run.Blank]
       ++ (List.map (fun i => Run.NoIncident
                                (Run.block_number connector - 10 + Z.of_nat i))
                    (seq 0 k)
           ++ [Run.Attack (Run.block_number connector - 10 + Z.of_nat k);
               Run.Details
                 (FlashSandwichTrap.get_alert_details
                    (FlashSandwichTrap.init config)
                    (Run.history connector
                       (Run.range (Run.block_number connector - 10)
                                  (Run.block_number connector)) (S k)))])
       ++ [Run.Complete],
     None) /\
  Alert.blocks_analyzed
    (FlashSandwichTrap.get_alert_details
       (FlashSandwichTrap.init config)
       (Run.history connector
          (Run.range (Run.block_number connector - 10)
                     (Run.block_number connector)) (S k)))
  = Z.of_nat k + 1.
Proof.
  intros Hpi Hfl Hk Hquiet Hhit. split.
  - unfold Run.run. rewrite Hpi, Hfl.
    rewrite (loop_incident _ connector _ [] k
               (Run.block_number connector - 10 + Z.of_nat k));
      [|apply range_nth; lia|exact Hquiet|exact Hhit].
    rewrite (take_range_lines _ _ k) by lia. reflexivity.
  - rewrite TrapFacts.get_alert_details_eq. simpl.
    unfold Run.history. rewrite length_map, length_take, range_length. lia.
Qed.

(** The attack seen at block 1001 with the chain head at 1005: six quiet
    blocks, then the incident at the seventh. *)
Lemma run_stops_at_first_incident_witness :
  exists alert,
    Run.run main_config demo_connector
    = ([Run.Running; Run.MinPriceImpact (5 # 1); Run.MinFlashLoan (100000 # 1);
        Run.Blank; Run.NoIncident 995; Run.NoIncident 996; Run.NoIncident 997;
        Run.NoIncident 998; Run.NoIncident 999; Run.NoIncident 1000;
        Run.Attack 1001; Run.Details alert; Run.Complete], None) /\
    Alert.blocks_analyzed alert = 7.
Proof.
  destruct (run_stops_at_first_incident
              main_config demo_connector (5 # 1) (100000 # 1) 6)
    as [Hrun Hn].
  - reflexivity.
  - reflexivity.
  - lia.
  - intros j Hj. do 6 (destruct j as [|j]; [vm_compute; reflexivity|]). lia.
  - vm_compute. reflexivity.
  - eexists. split; [exact Hrun|exact Hn].
Defined.

Lemma recent_bundle_source (connector : Run.Connector) (a b n : Z)
      (pre post : list Z) (bd : CollectedData.t) :
  Run.range a b = pre ++ n :: post ->
  In bd (slice_last 2 (List.map (Run.collected connector) pre
                         ++ [Run.collected connector n])) ->
  exists m, (m = n \/ m = n - 1) /\ bd = Run.collected connector m.
Proof.
  intros Hrange Hin. apply slice_last_two_snoc in Hin as [->|(xs & Hxs)].
  - exists n. auto.
  - apply map_eq_app in Hxs as (pre' & last & -> & _ & Hlast).
    destruct last as [|m [|? ?]]; try discriminate.
    injection Hlast as <-. exists m. split; [right|reflexivity].
    rewrite <- app_assoc in Hrange. simpl in Hrange.
    unfold Run.range in Hrange. apply seq_consecutive in Hrange. lia.
Qed.

(** X15.  Every alert the script prints is well formed: it counts between
    1 and 10 blocks, and it lists at least one loan and one swap, some
    listed loan and some listed swap having the same [tx] or the same
    address. *)
Theorem run_alerts_well_formed
        (config : FlashSandwichTrap.Config) (connector : Run.Connector)
        (alert : Alert.t) :
  In (Run.Details alert) (fst (Run.run config connector)) ->
  1 <= Alert.blocks_analyzed alert <= 10 /\
  exists le se,
    In le (Alert.flash_loans alert) /\
    In se (Alert.high_impact_swaps alert) /\
    (LoanEntry.tx le = SwapEntry.tx se \/
     LoanEntry.borrower le = SwapEntry.trader se).
Proof.
  intros Hin. apply run_in_loop in Hin; [|right; right; eauto].
  apply loop_details_inv in Hin as (pre & n & post & Hrange & Hhit & ->).
  split.
  - rewrite TrapFacts.get_alert_details_eq. simpl.
    apply (f_equal (@length _)) in Hrange.
    rewrite range_length, length_app in Hrange. simpl in Hrange.
    rewrite length_app, length_map. simpl. lia.
  - exact (alert_pair_of_respond _ _ Hhit).
Qed.

Lemma run_alerts_well_formed_witness :
  1 <= Alert.blocks_analyzed
         (FlashSandwichTrap.get_alert_details
            default_trap
            (Run.history demo_connector (Run.range 995 1005) 7)) <= 10.
Proof.
  apply (run_alerts_well_formed main_config demo_connector).
  vm_compute. repeat (first [left; reflexivity | right]).
Defined.

(** X16.  Every attack the script reports is backed by what the connector
    returned for the reported block or the block before it: for an attack
    line at block [n] there are a loan log and a swap log, each of block
    [n] or [n - 1], the loan amount at least [min_flash_loan_size], the
    swap's price impact at least [min_price_impact], and the two with the
    same [tx_hash] or with borrower equal to trader. *)
Theorem run_attack_backed_by_logs
        (config : FlashSandwichTrap.Config) (connector : Run.Connector) (n : Z) :
  In (Run.Attack n) (fst (Run.run config connector)) ->
  exists m1 l m2 s,
    (m1 = n \/ m1 = n - 1) /\ (m2 = n \/ m2 = n - 1) /\
    In l (Run.get_flash_loans connector m1) /\
    In s (Run.get_swaps connector m2) /\
    ge (LoanLog.amount l)
       (FlashSandwichTrap.min_flash_loan_size (FlashSandwichTrap.init config))
    = true /\
    ge (SwapLog.price_impact s)
       (FlashSandwichTrap.min_price_impact (FlashSandwichTrap.init config))
    = true /\
    (LoanLog.tx_hash l = SwapLog.tx_hash s \/
     LoanLog.borrower l = SwapLog.trader s).
Proof.
  intros Hin. apply run_in_loop in Hin; [|right; left; eauto].
  apply loop_attack_inv in Hin as (pre & post & Hrange & Hhit).
  simpl in Hhit. apply TrapFacts.should_respond_true_iff in Hhit
    as (loan & swap & Hl & Hs & Hbl & Hbs & Hr).
  rewrite TrapFacts.recent_blocks_slice in Hl, Hs.
  apply in_all_loans in Hl as (b1 & Hb1 & Hl).
  apply in_all_swaps in Hs as (b2 & Hb2 & Hs).
  destruct (recent_bundle_source connector _ _ n pre post b1 Hrange Hb1)
    as (m1 & Hm1 & ->).
  destruct (recent_bundle_source connector _ _ n pre post b2 Hrange Hb2)
    as (m2 & Hm2 & ->).
  simpl in Hl, Hs.
  apply in_map_iff in Hl as (l & <- & Hl).
  apply in_map_iff in Hs as (s & <- & Hs).
  exists m1, l, m2, s. apply related_true in Hr. auto 10.
Qed.

Lemma run_attack_backed_by_logs_witness :
  exists m1 l m2 s,
    (m1 = 1001 \/ m1 = 1001 - 1) /\ (m2 = 1001 \/ m2 = 1001 - 1) /\
    In l (Run.get_flash_loans demo_connector m1) /\
    In s (Run.get_swaps demo_connector m2) /\
    (LoanLog.tx_hash l = SwapLog.tx_hash s \/
     LoanLog.borrower l = SwapLog.trader s).
Proof.
  destruct (run_attack_backed_by_logs main_config demo_connector 1001)
    as (m1 & l & m2 & s & H1 & H2 & Hl & Hs & _ & _ & Hr).
  - vm_compute. repeat (first [left; reflexivity | right]).
  - exists m1, l, m2, s. auto.
Defined.

(** X17.  The script examines only the ten blocks below the chain head:
    every block number it prints, quiet or attacked, is at least
    [current - 10] and less than [current]; the head block itself is never
    examined. *)
Theorem run_examines_ten_blocks_below_head
        (config : FlashSandwichTrap.Config) (connector : Run.Connector) (n : Z) :
  In (Run.NoIncident n) (fst (Run.run config connector)) \/
  In (Run.Attack n) (fst (Run.run config connector)) ->
  Run.block_number connector - 10 <= n < Run.block_number connector.
Proof.
  intros Hin. apply range_in.
  apply (loop_blocks (FlashSandwichTrap.init config) connector _ []).
  destruct Hin as [Hin|Hin]; [left|right];
    (apply run_in_loop; [exact Hin|eauto]).
Qed.

Lemma run_examines_ten_blocks_below_head_witness :
  Run.block_number demo_connector - 10 <= 1001 < Run.block_number demo_connector.
Proof.
  apply (run_examines_ten_blocks_below_head main_config demo_connector 1001).
  right. vm_compute. repeat (first [left; reflexivity | right]).
Defined.

Lemma loop_shape (trap : FlashSandwichTrap.t) (connector : Run.Connector)
      (blocks : list Z) :
  forall hd,
  exists quiet tail,
    Run.loop trap connector blocks hd = List.map Run.NoIncident quiet ++ tail /\
    (tail = [] \/ exists n alert, tail = [Run.Attack n; Run.Details alert]).
Proof.
  induction blocks as [|b rest IH]; intros hd; simpl.
  - exists [], []. auto.
  - destruct (FlashSandwichTrap.should_respond _ _).
    + exists [], [Run.Attack b;
                  Run.Details (FlashSandwichTrap.get_alert_details
                                 trap (hd ++ [Run.collected connector b]))].
      split; [reflexivity|]. right. eauto.
    + destruct (IH (hd ++ [Run.collected connector b])) as (quiet & tail & -> & Htail).
      exists (b :: quiet), tail. auto.
Qed.

(** X18.  The script reports at most one attack and nothing after it:
    when it raises nothing, what it prints is the header, then
    "no incidents" lines, then either nothing or one attack line with its
    alert, then the closing line. *)
Theorem run_reports_at_most_one_attack
        (config : FlashSandwichTrap.Config) (connector : Run.Connector) :
  snd (Run.run config connector) = None ->
  exists price_impact flash_loan quiet tail,
    fst (Run.run config connector)
    = [Run.Running; Run.MinPriceImpact price_impact;
       Run.MinFlashLoan flash_loan; Run.Blank]
        ++ List.map Run.NoIncident quiet ++ tail ++ [Run.Complete] /\
    (tail = [] \/ exists n alert, tail = [Run.Attack n; Run.Details alert]).
Proof.
  unfold Run.run.
  destruct (FlashSandwichTrap.cfg_min_price_impact config) as [pi|];
    [destruct (FlashSandwichTrap.cfg_min_flash_loan_size config) as [fl|]|];
    simpl; try discriminate.
  intros _.
  destruct (loop_shape (FlashSandwichTrap.init config) connector
              (Run.range (Run.block_number connector - 10)
                         (Run.block_number connector)) [])
    as (quiet & tail & -> & Htail).
  exists pi, fl, quiet, tail. split; [|exact Htail].
  now rewrite <- app_assoc.
Qed.

Lemma run_reports_at_most_one_attack_witness :
  exists price_impact flash_loan quiet tail,
    fst (Run.run main_config demo_connector)
    = [Run.Running; Run.MinPriceImpact price_impact;
       Run.MinFlashLoan flash_loan; Run.Blank]
        ++ List.map Run.NoIncident quiet ++ tail ++ [Run.Complete] /\
    (tail = [] \/ exists n alert, tail = [Run.Attack n; Run.Details alert]).
Proof.
  apply (run_reports_at_most_one_attack main_config demo_connector).
  reflexivity.
Defined.

(** ** Fields the detector never reads *)

Lemma filter_of_map {A B : Type} (f : A -> B) (p : B -> bool) (l : list A) :
  List.filter p (List.map f l) = List.map f (List.filter (fun x => p (f x)) l).
Proof.
  induction l as [|x l IH]; simpl; [reflexivity|].
  destruct (p (f x)); simpl; now rewrite IH.
Qed.

Lemma all_loans_strip (bs : list CollectedData.t) :
  Events.all_loans (List.map strip_block bs)
  = List.map strip_loan (Events.all_loans bs).
Proof.
  induction bs as [|b bs IH]; [reflexivity|].
  change (Events.all_loans (List.map strip_block (b :: bs)))
    with (List.map strip_loan (CollectedData.flash_loans b)
            ++ Events.all_loans (List.map strip_block bs)).
  change (Events.all_loans (b :: bs))
    with (CollectedData.flash_loans b ++ Events.all_loans bs).
  now rewrite IH, List.map_app.
Qed.

Lemma all_swaps_strip (bs : list CollectedData.t) :
  Events.all_swaps (List.map strip_block bs)
  = List.map strip_swap (Events.all_swaps bs).
Proof.
  induction bs as [|b bs IH]; [reflexivity|].
  change (Events.all_swaps (List.map strip_block (b :: bs)))
    with (List.map strip_swap (CollectedData.swaps b)
            ++ Events.all_swaps (List.map strip_block bs)).
  change (Events.all_swaps (b :: bs))
    with (CollectedData.swaps b ++ Events.all_swaps bs).
  now rewrite IH, List.map_app.
Qed.

(** X19.  The detector reads only the borrower, amount and [tx_hash] of a
    loan and the trader, price impact and [tx_hash] of a swap: blanking
    the tokens, the swapped amounts, the block numbers and the timestamps
    of every bundle changes neither the decision nor the alert.  In
    particular the loan's token is never compared with the swap's tokens. *)
Theorem detector_ignores_other_fields
        (self : FlashSandwichTrap.t) (w : list CollectedData.t) :
  FlashSandwichTrap.should_respond self (List.map strip_block w)
  = FlashSandwichTrap.should_respond self w /\
  FlashSandwichTrap.get_alert_details self (List.map strip_block w)
  = FlashSandwichTrap.get_alert_details self w.
Proof.
  rewrite !TrapFacts.should_respond_existsb, !TrapFacts.recent_blocks_slice.
  rewrite !TrapFacts.get_alert_details_eq.
  rewrite slice_last_map, all_loans_strip, all_swaps_strip, length_map.
  rewrite !filter_of_map, !List.map_map.
  split.
  - rewrite existsb_of_map. apply existsb_pointwise. intros loan.
    rewrite existsb_of_map. apply existsb_pointwise. intros swap. reflexivity.
  - reflexivity.
Qed.
